(** * AgentRecommend: the task router and its model caller

    A shallow embedding of [src/agents/utils/function_caller_model.py]
    (class [LiteLLMFunctionCaller]) and [src/agents/utils/MultiAgentRouter.py]
    (classes [AgentResponse] and [MultiAgentRouter]), followed by the
    properties of the router that the specification states.

    Python strings are sequences of Unicode code points, exceptions are an
    explicit outcome, and the mutable parts (the remote model, the clock, the
    UUID generator, the conversation log) are threaded as state. *)

From Stdlib Require Import String Ascii NArith ZArith QArith List Lia Permutation.
From Stdlib Require Import DecimalString.
From stdpp Require Import base decidable option list.

Local Open Scope list_scope.
Local Set Warnings "-register-all".

(** ** Python strings *)

(** A Python [str]: the list of its code points. *)
Abbreviation pystr := (list N).

(** An ASCII literal as a Python string. *)
Definition py (s : string) : pystr :=
  List.map N_of_ascii (list_ascii_of_string s).

Module PyStr.

(** [s.startswith(prefix)] *)
Fixpoint startswith (s prefix : pystr) : bool :=
  match prefix, s with
  | [], _ => true
  | _ :: _, [] => false
  | p :: prefix', c :: s' => N.eqb c p && startswith s' prefix'
  end.

(** [c in chars] *)
Definition in_chars (chars : pystr) (c : N) : bool :=
  existsb (N.eqb c) chars.

(** [str.isspace] on one code point (CPython's [Py_UNICODE_ISSPACE]). *)
Definition isspace (c : N) : bool :=
  ((9 <=? c) && (c <=? 13) || (28 <=? c) && (c <=? 32)
   || (c =? 133) || (c =? 160) || (c =? 5760)
   || (8192 <=? c) && (c <=? 8202)
   || (c =? 8232) || (c =? 8233) || (c =? 8239) || (c =? 8287)
   || (c =? 12288))%N.

(** Remove the longest prefix of characters satisfying [f]. *)
Fixpoint lstrip_by (f : N -> bool) (s : pystr) : pystr :=
  match s with
  | [] => []
  | c :: s' => if f c then lstrip_by f s' else s
  end.

Definition rstrip_by (f : N -> bool) (s : pystr) : pystr :=
  rev (lstrip_by f (rev s)).

Definition strip_by (f : N -> bool) (s : pystr) : pystr :=
  rstrip_by f (lstrip_by f s).

(** A string that does not start with a character that [f] strips. *)
Definition left_clean (f : N -> bool) (s : pystr) : Prop :=
  match s with
  | [] => True
  | c :: _ => f c = false
  end.

(** [s.strip(chars)]: [chars] is a set of characters, not a substring. *)
Definition strip_chars (chars s : pystr) : pystr :=
  strip_by (in_chars chars) s.

(** [s.strip()] *)
Definition strip (s : pystr) : pystr := strip_by isspace s.

(** Truth value of an optional string: [None] and the empty string are false. *)
Definition truthy (o : option pystr) : bool :=
  match o with
  | Some (_ :: _) => true
  | _ => false
  end.

(** [a or b] on optional strings. *)
Definition or_else (a b : option pystr) : option pystr :=
  if truthy a then a else b.

End PyStr.

(** ** Python dictionaries

    A [dict] keeps its keys in insertion order, and assigning to a key that
    is present replaces the value in place. *)
Module PyDict.

Definition t (V : Type) : Type := list (pystr * V).

Definition empty {V} : t V := [].

(** [d[k] = v] *)
Fixpoint set {V} (k : pystr) (v : V) (d : t V) : t V :=
  match d with
  | [] => [(k, v)]
  | (k', v') :: d' =>
      if decide (k = k') then (k, v) :: d' else (k', v') :: set k v d'
  end.

(** [d.get(k)] *)
Fixpoint get {V} (k : pystr) (d : t V) : option V :=
  match d with
  | [] => None
  | (k', v') :: d' => if decide (k = k') then Some v' else get k d'
  end.

(** [k in d] *)
Definition mem {V} (k : pystr) (d : t V) : bool :=
  match get k d with Some _ => true | None => false end.

(** [d.items()] *)
Definition items {V} (d : t V) : list (pystr * V) := d.

(** [list(d.keys())] *)
Definition keys {V} (d : t V) : list pystr := List.map fst d.

End PyDict.

(** ** Exceptions and outcomes *)

Inductive exn : Type :=
| ValueError (msg : pystr)
| AttributeError (msg : pystr)
| KeyError (key : pystr)
| ValidationError (msg : pystr)
| JSONDecodeError (msg : pystr)
| RuntimeError (msg : pystr).

(** What a call does: it returns a value or raises. *)
Inductive outcome (A : Type) : Type :=
| Return (a : A)
| Raise (e : exn).
Arguments Return {A} a.
Arguments Raise {A} e.

Definition is_return {A} (o : outcome A) : bool :=
  match o with Return _ => true | Raise _ => false end.

(** A computation over a mutable state [S]; the state reached when an
    exception is raised is kept, as the effects that precede a Python
    exception are. *)
Definition M (S A : Type) : Type := S -> outcome A * S.

Definition ret {S A} (a : A) : M S A := fun s => (Return a, s).

Definition raise {S A} (e : exn) : M S A := fun s => (Raise e, s).

Definition bind {S A B} (m : M S A) (k : A -> M S B) : M S B :=
  fun s =>
    match m s with
    | (Return a, s') => k a s'
    | (Raise e, s') => (Raise e, s')
    end.

(** [try: m  except Exception as e: h e] *)
Definition try_except {S A} (m : M S A) (h : exn -> M S A) : M S A :=
  fun s =>
    match m s with
    | (Return a, s') => (Return a, s')
    | (Raise e, s') => h e s'
    end.

(** A pure call that may raise. *)
Definition lift_outcome {S A} (o : outcome A) : M S A := fun s => (o, s).

Notation "'let*' x := m 'in' k" := (bind m (fun x => k))
  (at level 10, x name, m at level 100, k at level 200, only parsing).

(** ** JSON values, as [json.loads] builds them *)

Inductive json : Type :=
| JNull
| JBool (b : bool)
| JInt (z : Z)
| JFloat (bits : Z)
| JStr (s : pystr)
| JList (l : list json)
| JDict (d : list (pystr * json)).

(** ** The routing decision ([class AgentResponse(BaseModel)]) *)

Record AgentResponse : Type := {
  selected_agent : pystr;
  reasoning : pystr;
  modified_task : option pystr;
}.

(** What [LiteLLMFunctionCaller.run] hands back on success: the validated
    model instance when a [base_model] was declared, the parsed JSON
    otherwise. *)
Inductive run_result (R : Type) : Type :=
| Validated (r : R)
| Parsed (j : json).
Arguments Validated {R} r.
Arguments Parsed {R} j.

(** One message of a completion request. *)
Record Message : Type := { msg_role : pystr; msg_content : pystr }.

(** The keyword arguments of [litellm.completion]. *)
Record CompletionRequest : Type := {
  req_model : pystr;
  req_messages : list Message;
  req_api_key : option pystr;
  req_temperature : Q;
  req_max_tokens : Z;
}.

(** ** The collaborators outside the repository

    [World] is the state of everything the code reaches but does not own:
    the remote model, the clock and the random source. *)
Class Externals : Type := {
  World : Type;
  (** The content of the first choice of [litellm.completion(...)];
      [None] when the message carries no content. *)
  completion_content :
    CompletionRequest -> World -> outcome (option pystr) * World;
  (** [json.loads] *)
  json_loads : pystr -> outcome json;
  (** [swarms.utils.any_to_str.any_to_str] on what [run] returned. *)
  any_to_str : option (run_result AgentResponse) -> pystr;
  (** [datetime.now()], in microseconds. *)
  datetime_now : World -> Z * World;
  (** [datetime.isoformat()] *)
  isoformat : Z -> pystr;
  (** [str(uuid.uuid4())] *)
  uuid4 : World -> pystr * World;
  (** [os.getenv] *)
  getenv : pystr -> option pystr;
}.

(** [AgentResponse.model_validate]: pydantic's check of a parsed object
    against the three declared fields.  [selected_agent] and [reasoning] are
    required strings, [modified_task] is an optional string that defaults to
    [None]; keys that are not declared are ignored. *)
Definition AgentResponse_model_validate (obj : json) : outcome AgentResponse :=
  match obj with
  | JDict d =>
      match PyDict.get (py "selected_agent") d,
            PyDict.get (py "reasoning") d with
      | Some (JStr sel), Some (JStr why) =>
          match PyDict.get (py "modified_task") d with
          | None | Some JNull =>
              Return {| selected_agent := sel; reasoning := why;
                        modified_task := None |}
          | Some (JStr m) =>
              Return {| selected_agent := sel; reasoning := why;
                        modified_task := Some m |}
          | Some _ => Raise (ValidationError (py "modified_task"))
          end
      | Some (JStr _), _ => Raise (ValidationError (py "reasoning"))
      | _, _ => Raise (ValidationError (py "selected_agent"))
      end
  | _ => Raise (ValidationError (py "AgentResponse"))
  end.

(** A reply wrapped in a markdown fence: the opening fence, a line break,
    the text, a line break, the closing fence. *)
Definition fenced (text : pystr) : pystr :=
  py "```json" ++ [10%N] ++ text ++ [10%N] ++ py "```".

(** ** The model caller ([class LiteLLMFunctionCaller]) *)
Module LiteLLMFunctionCaller.

Record t (R : Type) : Type := {
  model_name : pystr;
  system_prompt : pystr;
  api_key : option pystr;
  temperature : Q;
  base_model : option (json -> outcome R);
  max_tokens : Z;
}.
Arguments model_name {R} _.
Arguments system_prompt {R} _.
Arguments api_key {R} _.
Arguments temperature {R} _.
Arguments base_model {R} _.
Arguments max_tokens {R} _.

Section Methods.
Context `{Externals} {R : Type}.

(** [__init__]: the key is the argument or, failing that, the
    environment variable; without either the constructor raises. *)
Definition __init__ (model_name system_prompt : pystr)
    (base_model : option (json -> outcome R)) (api_key : option pystr)
    (temperature : Q) (max_tokens : Z) : outcome (t R) :=
  let api_key := PyStr.or_else api_key (getenv (py "LITELLM_API_KEY")) in
  if negb (PyStr.truthy api_key) then
    Raise (ValueError
      (py "API key is required. Set it via env variable or pass it explicitly."))
  else
    Return {| model_name := model_name; system_prompt := system_prompt;
              api_key := api_key; temperature := temperature;
              base_model := base_model; max_tokens := max_tokens |}.

(** The request that [run] sends for [task]. *)
Definition request (self : t R) (task : pystr) : CompletionRequest :=
  {| req_model := model_name self;
     req_messages :=
       [ {| msg_role := py "system"; msg_content := system_prompt self |};
         {| msg_role := py "user"; msg_content := task |} ];
     req_api_key := api_key self;
     req_temperature := temperature self;
     req_max_tokens := max_tokens self |}.

(** Lines 43 to 45: the markdown fence is removed only when the reply
    starts with it. *)
Definition strip_fence (content : pystr) : pystr :=
  if PyStr.startswith content (py "```json") then
    PyStr.strip
      (PyStr.strip_chars (py "```")
         (PyStr.strip_chars (py "```json") content))
  else content.

(** Lines 47 to 52, from the reply's content on. *)
Definition decode (self : t R) (content : pystr) : outcome (run_result R) :=
  match json_loads (strip_fence content) with
  | Raise e => Raise e
  | Return parsed_content =>
      match base_model self with
      | Some model_validate =>
          match model_validate parsed_content with
          | Return r => Return (Validated r)
          | Raise e => Raise e
          end
      | None => Return (Parsed parsed_content)
      end
  end.

(** The body of the [try] block of [run]. *)
Definition run_body (self : t R) (task : pystr) : M World (run_result R) :=
  let* response := completion_content (request self task) in
  match response with
  | None =>
      raise (AttributeError
               (py "'NoneType' object has no attribute 'startswith'"))
  | Some content => lift_outcome (decode self content)
  end.

(** [run]: every exception of the body is caught and turned into
    [None] (the message it prints is not modelled). *)
Definition run (self : t R) (task : pystr)
    : M World (option (run_result R)) :=
  try_except (let* r := run_body self task in ret (Some r))
             (fun _ => ret None).

(** [batch_run]: [[self.run(task) for task in tasks]] *)
Fixpoint batch_run (self : t R) (tasks : list pystr)
    : M World (list (option (run_result R))) :=
  match tasks with
  | [] => ret []
  | task :: tasks' =>
      let* r := run self task in
      let* rs := batch_run self tasks' in
      ret (r :: rs)
  end.

(** The workers of a pool running [run] on the tasks: [order] lists
    the positions in the order in which the calls take effect, and each
    result is stored in the slot of its position. *)
Fixpoint pool_map (self : t R) (tasks : list pystr) (order : list nat)
    (slots : list (option (option (run_result R))))
    : M World (list (option (option (run_result R)))) :=
  match order with
  | [] => ret slots
  | i :: order' =>
      match tasks !! i with
      | Some task =>
          let* r := run self task in
          pool_map self tasks order' (<[i := Some r]> slots)
      | None => pool_map self tasks order' slots
      end
  end.

(** [concurrent_run]: [ThreadPoolExecutor(max_workers=len(tasks))]
    raises [ValueError] when [max_workers] is not positive;
    [executor.map] yields the results by position. *)
Definition concurrent_run (order : list nat) (self : t R)
    (tasks : list pystr) : M World (list (option (run_result R))) :=
  if (length tasks <=? 0)%nat then
    raise (ValueError (py "max_workers must be greater than 0"))
  else
    let* slots := pool_map self tasks order (replicate (length tasks) None) in
    ret (omap (fun slot => slot) slots).

(** What [run] answers for [task] in the world [w]. *)
Definition answer (self : t R) (task : pystr) (w : World)
    : option (run_result R) :=
  match fst (run self task w) with
  | Return r => r
  | Raise _ => None
  end.

(** [run] is a function of the task: what it answers does not depend on
    the world it runs in. *)
Definition run_deterministic (self : t R) : Prop :=
  forall (task : pystr) (w w' : World),
    fst (run self task w) = fst (run self task w').

End Methods.

End LiteLLMFunctionCaller.

(** ** Handlers ([swarms.structs.agent.Agent], as the router uses it) *)
Module Agent.

(** A handler living in a world of type [World]. *)
Record t (World : Type) : Type := {
  name : pystr;
  id : pystr;
  description : pystr;
  (** [run(task)]: the handler's entry point; it may reach the world and
      it may raise. *)
  run : pystr -> World -> outcome pystr * World;
}.
Arguments name {World} _.
Arguments id {World} _.
Arguments description {World} _.
Arguments run {World} _ _ _.

End Agent.

(** ** The task record that [route_task] returns *)

Record TaskInfo : Type := {
  original : pystr;
  modified : option pystr;
}.

Record BossDecision : Type := {
  decision_selected_agent : pystr;
  decision_reasoning : pystr;
}.

Record Execution : Type := {
  agent_name : pystr;
  agent_id : pystr;
  was_executed : bool;
  response : option pystr;
  execution_time : option Q;
}.

Record TaskRecord : Type := {
  id : pystr;
  timestamp : pystr;
  task : TaskInfo;
  boss_decision : BossDecision;
  execution : Execution;
  total_time : Q;
}.

(** The fields of a record that are not drawn from the clock or from the
    UUID generator. *)
Record RecordContent : Type := {
  content_task : TaskInfo;
  content_decision : BossDecision;
  content_agent_name : pystr;
  content_agent_id : pystr;
  content_was_executed : bool;
  content_response : option pystr;
}.

Definition record_content (r : TaskRecord) : RecordContent :=
  {| content_task := task r;
     content_decision := boss_decision r;
     content_agent_name := agent_name (execution r);
     content_agent_id := agent_id (execution r);
     content_was_executed := was_executed (execution r);
     content_response := response (execution r) |}.

(** One turn of the conversation log. *)
Record Turn : Type := { role : pystr; content : pystr }.

(** One invocation of a handler's entry point: which handler, and the
    argument it was given. *)
Record Call : Type := { callee : pystr; argument : pystr }.

(** [(later - earlier).total_seconds()] *)
Definition total_seconds (later earlier : Z) : Q :=
  (later - earlier) # 1000000.

(** [sep.join(parts)] *)
Fixpoint join (sep : pystr) (parts : list pystr) : pystr :=
  match parts with
  | [] => []
  | [part] => part
  | part :: parts' => part ++ sep ++ join sep parts'
  end.

(** ** The router ([class MultiAgentRouter]) *)
Module MultiAgentRouter.

(** The attributes that [__init__] sets and nothing changes afterwards
    ([shared_memory_system] is not used by the routing methods). *)
Record t (World : Type) : Type := {
  name : pystr;
  description : pystr;
  output_type : pystr;
  execute_task : bool;
  model : pystr;
  temperature : Q;
  agents : PyDict.t (Agent.t World);
  api_key : option pystr;
  boss_system_prompt : pystr;
  function_caller : LiteLLMFunctionCaller.t AgentResponse;
}.
Arguments name {World} _.
Arguments description {World} _.
Arguments output_type {World} _.
Arguments execute_task {World} _.
Arguments model {World} _.
Arguments temperature {World} _.
Arguments agents {World} _.
Arguments api_key {World} _.
Arguments boss_system_prompt {World} _.
Arguments function_caller {World} _.

(** What the methods change: the world, [self.conversation], and the
    invocations of handlers made so far. *)
Record State (World : Type) : Type := {
  world : World;
  conversation : list Turn;
  calls : list Call;
}.
Arguments world {World} _.
Arguments conversation {World} _.
Arguments calls {World} _.

Section Router.
Context `{Externals}.

(** The state a freshly constructed router starts from
    ([self.conversation = Conversation()]). *)
Definition initial_state (w : World) : State World :=
  {| world := w; conversation := []; calls := [] |}.

(** [{agent.name: agent for agent in agents}] *)
Definition agents_by_name (agents : list (Agent.t World))
    : PyDict.t (Agent.t World) :=
  fold_left (fun d agent => PyDict.set (Agent.name agent) agent d)
            agents PyDict.empty.

(** [_create_boss_system_prompt] *)
Definition _create_boss_system_prompt (agents : PyDict.t (Agent.t World))
    : pystr :=
  let newline := py (String "010" EmptyString) in
  let agent_descriptions :=
    join newline
      (List.map (fun '(name, agent) =>
                   py "- " ++ name ++ py ": " ++ Agent.description agent)
                (PyDict.items agents)) in
  join newline
    [ py "You are a task-routing boss agent responsible for assigning tasks to the most suitable specialized agent.  ";
      [];
      py "### Available Agents:";
      agent_descriptions ++ py "  ";
      [];
      py "### Your Responsibilities:";
      py "1. **Analyze** the given task.  ";
      py "2. **Identify** the most appropriate agent based on their expertise.  ";
      py "3. **Explain** your selection with clear reasoning.  ";
      py "4. **Enhance** the task while preserving its original intent, making it clearer and more actionable for the selected agent.  ";
      [];
      py "### Response Format (JSON):";
      py "You must respond with a valid JSON object containing:  ";
      py "- **selected_agent**: The name of the chosen agent (must be one of the available agents).  ";
      py "- **reasoning**: A brief explanation of why this agent was selected.  ";
      py "- **modified_task** *(optional)*: A refined version of the task that:";
      py "  - Retains **all key details** from the original task.  ";
      py "  - Clarifies vague elements if necessary.  ";
      py "  - Expands on missing details that could help the agent execute the task better.  ";
      [];
      [9888%N; 65039%N]
        ++ py " Always select exactly **one** agent that best matches the task requirements." ].

(** [__init__] *)
Definition __init__ (name description : pystr) (agents : list (Agent.t World))
    (model : pystr) (api_key : option pystr) (temperature : Q)
    (output_type : pystr) (execute_task : bool) : outcome (t World) :=
  let agents := agents_by_name agents in
  if negb (PyStr.truthy api_key) then
    Raise (ValueError (py "OpenAI API key must be provided"))
  else
    let boss_system_prompt := _create_boss_system_prompt agents in
    match LiteLLMFunctionCaller.__init__ model boss_system_prompt
            (Some AgentResponse_model_validate) api_key temperature 5000
    with
    | Raise e => Raise e
    | Return function_caller =>
        Return {| name := name; description := description;
                  output_type := output_type;
                  execute_task := execute_task;
                  model := model; temperature := temperature;
                  agents := agents; api_key := api_key;
                  boss_system_prompt := boss_system_prompt;
                  function_caller := function_caller |}
    end.

(** A call that only reaches the world. *)
Definition in_world {A} (m : M World A) : M (State World) A :=
  fun s =>
    let '(o, w) := m (world s) in
    (o, {| world := w; conversation := conversation s; calls := calls s |}).

(** [datetime.now()] *)
Definition now : M (State World) Z :=
  in_world (fun w => let '(t, w') := datetime_now w in (Return t, w')).

(** [str(uuid.uuid4())] *)
Definition new_uuid : M (State World) pystr :=
  in_world (fun w => let '(u, w') := uuid4 w in (Return u, w')).

(** [self.conversation.add(role=..., content=...)] *)
Definition conversation_add (role content : pystr) : M (State World) unit :=
  fun s =>
    (Return tt,
     {| world := world s;
        conversation :=
          conversation s ++ [ {| role := role; content := content |} ];
        calls := calls s |}).

(** [agent.run(argument)], recorded in [calls]. *)
Definition invoke (agent : Agent.t World) (argument : pystr)
    : M (State World) pystr :=
  fun s =>
    let '(o, w) := Agent.run agent argument (world s) in
    (o, {| world := w; conversation := conversation s;
           calls := calls s ++ [ {| callee := Agent.name agent;
                                    argument := argument |} ] |}).

(** Reading an attribute of what the function caller returned: only a
    validated [AgentResponse] has the declared fields. *)
Definition attributes (boss_response : option (run_result AgentResponse))
    : M (State World) AgentResponse :=
  match boss_response with
  | Some (Validated decision) => ret decision
  | Some (Parsed _) =>
      raise (AttributeError
               (py "'dict' object has no attribute 'selected_agent'"))
  | None =>
      raise (AttributeError
               (py "'NoneType' object has no attribute 'selected_agent'"))
  end.

(** [self.agents[key]] *)
Definition getitem (agents : PyDict.t (Agent.t World)) (key : pystr)
    : M (State World) (Agent.t World) :=
  match PyDict.get key agents with
  | Some agent => ret agent
  | None => raise (KeyError key)
  end.

(** [route_task] (the messages it logs are not modelled, so the
    [except] clause only raises the exception again). *)
Definition route_task (self : t World) (task : pystr) : M (State World) TaskRecord :=
  try_except
    (let* _ := conversation_add (py "user") task in
     let* start_time := now in
     let* boss_response :=
       in_world (LiteLLMFunctionCaller.run (function_caller self) task) in
     let boss_response_str := any_to_str boss_response in
     let* _ := conversation_add (py "assistant") boss_response_str in
     let* decision := attributes boss_response in
     if negb (PyDict.mem (selected_agent decision) (agents self)) then
       raise (ValueError (py "Boss selected unknown agent: "
                            ++ selected_agent decision))
     else
       let* selected := getitem (agents self) (selected_agent decision) in
       let final_task := task in
       let* execution_start := now in
       let* executed :=
         (if execute_task self then
            let* agent_response := invoke selected final_task in
            let* _ :=
              conversation_add (Agent.name selected) agent_response in
            let* finished := now in
            ret (Some agent_response,
                 total_seconds finished execution_start)
          else ret (None, 0%Q)) in
       let '(agent_response, execution_time) := executed in
       let* finished := now in
       let total_time := total_seconds finished start_time in
       let* fresh_id := new_uuid in
       let* stamp := now in
       ret {| id := fresh_id;
              timestamp := isoformat stamp;
              task :=
                {| original := task;
                   modified :=
                     if PyStr.truthy (modified_task decision)
                     then Some final_task else None |};
              boss_decision :=
                {| decision_selected_agent := selected_agent decision;
                   decision_reasoning := reasoning decision |};
              execution :=
                {| agent_name := Agent.name selected;
                   agent_id := Agent.id selected;
                   was_executed := execute_task self;
                   response :=
                     if execute_task self then agent_response else None;
                   execution_time :=
                     if execute_task self then Some execution_time
                     else None |};
              total_time := total_time |})
    (fun e => raise e).

(** The loop of [batch_run], with the list [results] built so far. *)
Fixpoint batch_loop (self : t World) (tasks : list pystr)
    (results : list TaskRecord) : M (State World) (list TaskRecord) :=
  match tasks with
  | [] => ret results
  | task :: tasks' =>
      let* results :=
        try_except
          (let* result := route_task self task in
           ret (results ++ [result]))
          (fun _ => ret results) in
      batch_loop self tasks' results
  end.

(** [batch_run] *)
Definition batch_run (self : t World) (tasks : list pystr)
    : M (State World) (list TaskRecord) :=
  batch_loop self tasks [].

(** Running a call to its end and keeping what it did, as a future
    does. *)
Definition attempt {A} (m : M (State World) A) : M (State World) (outcome A) :=
  fun s => let '(o, s') := m s in (Return o, s').

(** The futures of [concurrent_batch_run], in the order in which they
    complete: [order] lists the positions of the tasks in that order,
    and each call of [route_task] is taken to run without interleaving
    with the others.  The workers of the pool do interleave, and futures
    that are already finished are yielded in no fixed order: the order of
    the list, the log and the state that this definition gives are those
    of one schedule among many, and only what does not depend on the
    schedule is stated about it. *)
Fixpoint as_completed (self : t World) (tasks : list pystr) (order : list nat)
    : M (State World) (list (outcome TaskRecord)) :=
  match order with
  | [] => ret []
  | i :: order' =>
      match tasks !! i with
      | Some task =>
          let* future := attempt (route_task self task) in
          let* futures := as_completed self tasks order' in
          ret (future :: futures)
      | None => as_completed self tasks order'
      end
  end.

(** The loop over the completed futures: [future.result()] returns the
    record or raises what the call raised. *)
Fixpoint collect (futures : list (outcome TaskRecord))
    (results : list TaskRecord) : list TaskRecord :=
  match futures with
  | [] => results
  | Return result :: futures' => collect futures' (results ++ [result])
  | Raise _ :: futures' => collect futures' results
  end.

(** [concurrent_batch_run] *)
Definition concurrent_batch_run (order : list nat) (self : t World)
    (tasks : list pystr) : M (State World) (list TaskRecord) :=
  let* futures := as_completed self tasks order in
  ret (collect futures []).

(** What the decision step answers when [route_task] is called in state
    [s]: the function caller runs after the start time has been read. *)
Definition boss_response_at (self : t World) (task : pystr) (s : State World)
    : option (run_result AgentResponse) :=
  match fst (LiteLLMFunctionCaller.run (function_caller self) task
               (snd (datetime_now (world s)))) with
  | Return boss_response => boss_response
  | Raise _ => None
  end.

(** The state after the first steps of [route_task], up to the validation
    of the selected name: two turns are logged, the clock is read once, the
    decision step runs once. *)
Definition after_decision (self : t World) (task : pystr) (s : State World) : State World :=
  {| world :=
       snd (LiteLLMFunctionCaller.run (function_caller self) task
              (snd (datetime_now (world s))));
     conversation :=
       conversation s
       ++ [ {| role := py "user"; content := task |};
            {| role := py "assistant";
               content := any_to_str (boss_response_at self task s) |} ];
     calls := calls s |}.

(** The world in which the selected handler runs: the clock is read once
    more after the decision. *)
Definition execution_world (self : t World) (task : pystr) (s : State World) : World :=
  snd (datetime_now (world (after_decision self task s))).

(** The world after the closing steps of a call in which the handler
    returned in the world [w]: the clock is read for the execution time and
    for the total time, the identifier is drawn, and the clock is read for
    the timestamp. *)
Definition closing_world (w : World) : World :=
  snd (datetime_now (snd (uuid4 (snd (datetime_now (snd (datetime_now w))))))).

(** The fields that [route_task] fills from the task, the decision and the
    selected handler, given what the handler answered. *)
Definition routed_content (self : t World) (task : pystr) (decision : AgentResponse)
    (selected : Agent.t World) (agent_response : option pystr) : RecordContent :=
  {| content_task :=
       {| original := task;
          modified := if PyStr.truthy (modified_task decision)
                      then Some task else None |};
     content_decision :=
       {| decision_selected_agent := selected_agent decision;
          decision_reasoning := reasoning decision |};
     content_agent_name := Agent.name selected;
     content_agent_id := Agent.id selected;
     content_was_executed := execute_task self;
     content_response := agent_response |}.

(** Routing the tasks one after the other, whatever each call does: the
    outcome of every call, and the state after the last one. *)
Fixpoint route_each (self : t World) (tasks : list pystr) (s : State World)
    : list (outcome TaskRecord) * State World :=
  match tasks with
  | [] => ([], s)
  | task :: tasks' =>
      let '(o, s1) := route_task self task s in
      let '(os, s2) := route_each self tasks' s1 in
      (o :: os, s2)
  end.

(** The decision step is a function of the task: what it answers does not
    depend on the world it runs in. *)
Definition decision_deterministic (self : t World) (task : pystr) : Prop :=
  forall w w' : World,
    fst (LiteLLMFunctionCaller.run (function_caller self) task w)
    = fst (LiteLLMFunctionCaller.run (function_caller self) task w').

(** Every registered handler is a function of the task. *)
Definition handlers_deterministic (self : t World) (task : pystr) : Prop :=
  forall (key : pystr) (agent : Agent.t World),
    PyDict.get key (agents self) = Some agent ->
    forall w w' : World,
      fst (Agent.run agent task w) = fst (Agent.run agent task w').

(** The handler that the decision step selects for the task, called in
    state [s], is a function of the task; nothing is asked of the other
    handlers. *)
Definition selected_handler_deterministic (self : t World) (task : pystr)
    (s : State World) : Prop :=
  forall (d : AgentResponse) (agent : Agent.t World),
    boss_response_at self task s = Some (Validated d) ->
    PyDict.get (selected_agent d) (agents self) = Some agent ->
    forall w w' : World,
      fst (Agent.run agent task w) = fst (Agent.run agent task w').

End Router.

End MultiAgentRouter.

(** The values of the calls that returned, in order. *)
Definition successes {A} (outcomes : list (outcome A)) : list A :=
  omap (fun o => match o with Return a => Some a | Raise _ => None end)
       outcomes.

(** An outcome with its value replaced by its image. *)
Definition outcome_map {A B} (f : A -> B) (o : outcome A) : outcome B :=
  match o with
  | Return a => Return (f a)
  | Raise e => Raise e
  end.

(** ** The text helpers ([src/utils/parse.py]) *)
Module Parse.

(** [s.replace(old, new)] for a non-empty [old]: the occurrences of [old]
    are replaced from left to right, without overlap.  [skip] counts the
    characters of an occurrence that are still to be passed over. *)
Fixpoint replace_from (old new s : pystr) (skip : nat) : pystr :=
  match s with
  | [] => []
  | c :: s' =>
      match skip with
      | S skip' => replace_from old new s' skip'
      | O =>
          if PyStr.startswith s old
          then new ++ replace_from old new s' (length old - 1)
          else c :: replace_from old new s' 0
      end
  end.

Definition replace (old new s : pystr) : pystr := replace_from old new s 0.

(** A backslash followed by the letter n. *)
Definition escaped_newline : pystr := [92%N; 110%N].

(** [parse_text] *)
Definition parse_text (text : pystr) : pystr :=
  replace escaped_newline [10%N] text.

(** [old in s]: [old] occurs somewhere in [s]. *)
Definition contains (s old : pystr) : Prop :=
  exists before after : pystr, s = before ++ old ++ after.

(** [s.endswith(suffix)] *)
Definition endswith (s suffix : pystr) : bool :=
  PyStr.startswith (rev s) (rev suffix).

(** The opening and the closing marker of a code block, with the line
    break that belongs to each. *)
Definition opening_marker : pystr := py "```json" ++ [10%N].
Definition closing_marker : pystr := [10%N] ++ py "```".

(** [re.sub(r'^```json\n|\n```$', '', s)]: the first alternative can only
    match at the start of [s]; the second only where [s] ends, or just
    before a line break that ends [s], and only in what the first
    alternative has not consumed. *)
Definition remove_markers (s : pystr) : pystr :=
  let s1 := if PyStr.startswith s opening_marker
            then drop (length opening_marker) s else s in
  if endswith s1 closing_marker then
    take (length s1 - length closing_marker) s1
  else if endswith s1 (closing_marker ++ [10%N]) then
    take (length s1 - length closing_marker - 1) s1 ++ [10%N]
  else s1.

(** [parse_json_from_string]: Python's [None], returned when the text does
    not decode, is the value [JNull] that [json.loads] also gives for the
    text [null]; only [JSONDecodeError] is caught. *)
Definition parse_json_from_string `{Externals} (json_string : pystr)
    : outcome json :=
  let clean_json_string := remove_markers (PyStr.strip json_string) in
  match json_loads clean_json_string with
  | Return value => Return value
  | Raise (JSONDecodeError _) => Return JNull
  | Raise e => Raise e
  end.

End Parse.

(** ** The extraction agent ([src/agents/ExtractAgent.py]) *)

(** The vision model behind [ExtractAgent.run]: opening the image at
    [image_path] and asking [client.models.generate_content] for the text
    of its answer, given the system instruction and the query. *)
Class Vision `{Externals} : Type := {
  generate_content_text :
    pystr -> pystr -> pystr -> World -> outcome (option pystr) * World;
}.

Module ExtractAgent.

Definition EXTRACT_PROMPT : pystr :=
  join [10%N]
   [ py "Analyze all charts in the provided image and extract **all possible details**. If multiple charts are present, clearly separate the extracted information for each chart. The output should follow this structure:";
    [];
    py "## **1. Overview of Charts in the Image**";
    py "- **Total Number of Charts**: Identify the number of distinct charts present in the image.";
    py "- **Chart Titles (if available)**: List the title of each chart.";
    py "- **Chart Types**: Identify the type of each chart (e.g., Bar Chart, Line Chart, Pie Chart, Scatter Plot, etc.).";
    py "- **Primary Subject**: Briefly describe what each chart represents.";
    py "- **Timeframe (if applicable)**: Mention the period covered by each chart.";
    [];
    py "## **2. Detailed Analysis for Each Chart**";
    py "For each chart, extract the following details:";
    [];
    py "### **Chart [X]: [Chart Title or Description]**";
    py "#### **General Information**";
    py "- **Chart Type**: Identify the type of chart.";
    py "- **Primary Subject**: What the chart is measuring or analyzing.";
    py "- **Legend Information**: List all categories, labels, or series appearing in the chart.";
    [];
    py "#### **Axis & Data Details**";
    py "##### **X-Axis Information**";
    py "- **Label**: Extract the title of the X-axis (e.g., 'Months', 'Product Categories').";
    py "- **All Values**: List every unique value on the X-axis.";
    [];
    py "##### **Y-Axis Information**";
    py "- **Label**: Extract the title of the Y-axis (e.g., 'Revenue (in USD)', 'Number of Sales').";
    py "- **Value Range**:";
    py "  - **Minimum Value**: The smallest numerical value.";
    py "  - **Maximum Value**: The highest numerical value.";
    py "- **All Numerical Values**:";
    py "  - **Each Data Point**: List every plotted value along with its corresponding X-axis label.";
    [];
    py "#### **3. Detailed Numerical Data by Category**";
    py "For charts with multiple series/categories, organize data in tables.";
    [];
    py "##### **Category 1: [Category Name]**";
    py "| X-Axis Value  | Y-Axis Value |";
    py "|--------------|-------------|";
    py "| [Value 1]    | [Number]    |";
    py "| [Value 2]    | [Number]    |";
    py "| [Value 3]    | [Number]    |";
    py "| ...          | ...         |";
    [];
    py "##### **Category 2: [Category Name]**";
    py "| X-Axis Value  | Y-Axis Value |";
    py "|--------------|-------------|";
    py "| [Value 1]    | [Number]    |";
    py "| [Value 2]    | [Number]    |";
    py "| [Value 3]    | [Number]    |";
    py "| ...          | ...         |";
    [];
    py "#### **4. Statistical Summary**";
    py "- **Minimum, Maximum, and Average Values for Each Category**:";
    py "  - **[Category Name]**:";
    py "    - Min: [Value]";
    py "    - Max: [Value]";
    py "    - Average: [Value]";
    py "  - **[Category Name]**:";
    py "    - Min: [Value]";
    py "    - Max: [Value]";
    py "    - Average: [Value]";
    py "- **Overall Trend**:";
    py "  - Describe whether values are increasing, decreasing, fluctuating, or stable.";
    py "- **Significant Points**:";
    py "  - Identify any peaks, lowest points, or anomalies.";
    [];
    py "#### **5. Additional Information (if applicable)**";
    py "- **Pie Chart Percentages** (if applicable):";
    py "  - List each segment and its corresponding percentage.";
    py "- **Stacked Chart Breakdown**:";
    py "  - Provide numerical values for each category in a stacked chart.";
    py "- **Annotations & Markers**:";
    py "  - Capture any additional labeled points, highlighted sections, or special markers.";
    [];
    py "---";
    py "**Final Output Structure Example (for an image with multiple charts):**  ";
    py "- **Chart 1**: Bar Chart - Monthly Sales (January-December 2023)  ";
    py "- **Chart 2**: Line Chart - Revenue Trend Over the Past 5 Years  ";
    py "- **Chart 3**: Pie Chart - Market Share Distribution by Company  ";
    [];
    py "Each chart's data should be extracted and structured in a **clear, numerical, and category-wise format**.";
    [];
    [] ].

Record t : Type := { system_prompt : pystr }.

(** [__init__]: a missing or empty prompt is replaced by the default. *)
Definition __init__ (system_prompt : option pystr) : t :=
  match system_prompt with
  | Some (c :: prompt) => {| system_prompt := c :: prompt |}
  | _ => {| system_prompt := EXTRACT_PROMPT |}
  end.

(** [run] *)
Definition run `{Vision} (self : t) (query image_path : pystr)
    : M World pystr :=
  let* text := generate_content_text (system_prompt self) query image_path in
  match text with
  | None =>
      raise (AttributeError (py "'NoneType' object has no attribute 'strip'"))
  | Some text => ret (PyStr.strip text)
  end.

End ExtractAgent.

(** ** The chat turn ([get_response] of [src/main.py]) *)
Module Main.

(** What can end [get_response] early: an exception of the layers below,
    or the [TypeError] of subscripting a value that is not a dictionary. *)
Inductive failure : Type :=
| Propagated (e : exn)
| TypeError (msg : pystr).

Inductive result (A : Type) : Type :=
| Finished (a : A)
| Failed (f : failure).
Arguments Finished {A} a.
Arguments Failed {A} f.

(** [value[key]] for a string [key], on a value that came out of
    [parse_json_from_string]. *)
Definition getitem (value : json) (key : pystr) : result json :=
  match value with
  | JDict d =>
      match PyDict.get key d with
      | Some v => Finished v
      | None => Failed (Propagated (KeyError key))
      end
  | JNull => Failed (TypeError (py "'NoneType' object is not subscriptable"))
  | JList _ =>
      Failed (TypeError (py "list indices must be integers or slices, not str"))
  | JStr _ =>
      Failed (TypeError (py "string indices must be integers, not 'str'"))
  | JBool _ => Failed (TypeError (py "'bool' object is not subscriptable"))
  | JInt _ => Failed (TypeError (py "'int' object is not subscriptable"))
  | JFloat _ => Failed (TypeError (py "'float' object is not subscriptable"))
  end.

(** An answer inside an f-string: [None] is written out. *)
Definition format_answer (answer : option pystr) : pystr :=
  match answer with
  | Some text => text
  | None => py "None"
  end.

(** The task that [get_response] hands to the router. *)
Definition router_task (extraction query : pystr) : pystr :=
  py "Here is extracted information about the chart: "
  ++ extraction ++ [10%N; 10%N] ++ query.

(** The prompt that [get_response] hands to the recommendation agent. *)
Definition recommendation_prompt (query : pystr) (answer : option pystr)
    : pystr :=
  py "This is the query: " ++ query ++ [10%N; 10%N]
  ++ py "Here is the answer question: " ++ format_answer answer
  ++ py ". Give me some short recommended prompts based on this information."
  ++ [10%N].

Section GetResponse.
Context `{Vision}.

(** [agent_router.run(task)] is [route_task] (lines 235 to 237 of the
    router). *)
Definition agent_router_run (agent_router : MultiAgentRouter.t World)
    (task : pystr) : M (MultiAgentRouter.State World) TaskRecord :=
  MultiAgentRouter.route_task agent_router task.

(** [get_response]: the three module-level objects it uses are
    arguments. *)
Definition get_response (extract_agent : ExtractAgent.t)
    (agent_router : MultiAgentRouter.t World)
    (recommend_agent : Agent.t World)
    (image_path query : pystr) (extraction : option pystr)
    (s : MultiAgentRouter.State World)
    : result (option pystr * json * pystr) * MultiAgentRouter.State World :=
  let extracted :=
    match extraction with
    | None =>
        MultiAgentRouter.in_world
          (ExtractAgent.run extract_agent query image_path) s
    | Some extraction => (Return extraction, s)
    end in
  match extracted with
  | (Raise e, s1) => (Failed (Propagated e), s1)
  | (Return extraction, s1) =>
      match agent_router_run agent_router (router_task extraction query) s1
      with
      | (Raise e, s2) => (Failed (Propagated e), s2)
      | (Return output, s2) =>
          let answer := response (execution output) in
          match MultiAgentRouter.invoke recommend_agent
                  (recommendation_prompt query answer) s2 with
          | (Raise e, s3) => (Failed (Propagated e), s3)
          | (Return reply, s3) =>
              match Parse.parse_json_from_string reply with
              | Raise e => (Failed (Propagated e), s3)
              | Return chart_recommendation =>
                  match getitem chart_recommendation
                          (py "recommended_prompts") with
                  | Failed f => (Failed f, s3)
                  | Finished prompts =>
                      (Finished (answer, prompts, extraction), s3)
                  end
              end
          end
      end
  end.

End GetResponse.

End Main.

(** ** A concrete setting

    A small world in which the definitions above can be run: the clock and
    the UUID generator are a counter, the remote model answers a handful of
    tasks, and two handlers are registered. *)
Module Demo.

(** A string between double quotes. *)
Definition quoted (s : string) : pystr := [34%N] ++ py s ++ [34%N].

(** The text of a JSON object with string members. *)
Definition object_text (members : list (string * string)) : pystr :=
  py "{" ++ join (py ", ")
              (List.map (fun '(k, v) => quoted k ++ py ": " ++ quoted v) members)
         ++ py "}".

(** The object that [object_text] denotes. *)
Definition object_value (members : list (string * string)) : json :=
  JDict (List.map (fun '(k, v) => (py k, JStr (py v))) members).

Definition math_decision : list (string * string) :=
  [ ("selected_agent", "B"); ("reasoning", "math task");
    ("modified_task", "Compute 2+2") ]%string.

Definition greeting_decision : list (string * string) :=
  [ ("selected_agent", "A"); ("reasoning", "greeting") ]%string.

Definition unknown_decision : list (string * string) :=
  [ ("selected_agent", "C"); ("reasoning", "nobody fits") ]%string.

Definition incomplete_decision : list (string * string) :=
  [ ("reasoning", "no agent named") ]%string.

Definition known_objects : list (list (string * string)) :=
  [ math_decision; greeting_decision; unknown_decision; incomplete_decision ].

(** The parser of the setting: it knows the objects above, surrounded by
    any amount of white space, and rejects everything else. *)
Definition loads (s : pystr) : outcome json :=
  match List.find (fun members =>
                     bool_decide (PyStr.strip s = object_text members))
                  known_objects with
  | Some members => Return (object_value members)
  | None => Raise (JSONDecodeError (py "Expecting value"))
  end.

(** The remote model of the setting: its reply depends on the user message
    only; every call advances the counter. *)
Definition reply (task : pystr) : outcome (option pystr) :=
  if bool_decide (task = py "What is 2+2?") then
    Return (Some (fenced (object_text math_decision)))
  else if bool_decide (task = py "hello") then
    Return (Some (object_text greeting_decision))
  else if bool_decide (task = py "who?") then
    Return (Some (object_text unknown_decision))
  else if bool_decide (task = py "incomplete") then
    Return (Some (object_text incomplete_decision))
  else if bool_decide (task = py "garbled") then
    Return (Some (py "I cannot answer that."))
  else Raise (RuntimeError (py "connection refused")).

Definition user_message (request : CompletionRequest) : pystr :=
  match req_messages request with
  | [_; user] => msg_content user
  | _ => []
  end.

Definition digits (n : nat) : pystr :=
  py (DecimalString.NilZero.string_of_uint (Nat.to_uint n)).

Definition describe (r : option (run_result AgentResponse)) : pystr :=
  match r with
  | Some (Validated d) => selected_agent d ++ py ": " ++ reasoning d
  | Some (Parsed _) => py "dict"
  | None => py "None"
  end.

Definition externals : Externals :=
  {| World := nat;
     completion_content request w := (reply (user_message request), S w);
     json_loads := loads;
     any_to_str := describe;
     datetime_now w := ((Z.of_nat w * 1000000)%Z, S w);
     isoformat t := py (DecimalString.NilZero.string_of_int (Z.to_int t));
     uuid4 w := (py "uuid-" ++ digits w, S w);
     getenv _ := None |}.

(** A second setting with the same pieces, except that the remote model
    drifts: whatever the task, it selects handler A early on and handler B
    later, and it wraps its reply in a fence when the counter is even. *)
Definition drifting : Externals :=
  {| World := nat;
     completion_content request w :=
       let text := object_text (if (w <? 5)%nat then greeting_decision
                                else math_decision) in
       (Return (Some (if Nat.even w then fenced text else text)), S w);
     json_loads := loads;
     any_to_str := describe;
     datetime_now w := ((Z.of_nat w * 1000000)%Z, S w);
     isoformat t := py (DecimalString.NilZero.string_of_int (Z.to_int t));
     uuid4 w := (py "uuid-" ++ digits w, S w);
     getenv _ := None |}.

#[local] Existing Instance externals.

(** Handler A greets, handler B hands its argument back. *)
Definition agent_A : Agent.t World :=
  {| Agent.name := py "A"; Agent.id := py "agent-a";
     Agent.description := py "handles greetings";
     Agent.run task w := (Return (py "Hello!"), S w) |}.

Definition agent_B : Agent.t World :=
  {| Agent.name := py "B"; Agent.id := py "agent-b";
     Agent.description := py "handles math";
     Agent.run task w := (Return task, S w) |}.

(** The arguments that the setting gives to the constructor. *)
Definition router_with (execute_task : bool) : outcome (MultiAgentRouter.t World) :=
  MultiAgentRouter.__init__ (py "swarm-router")
    (py "Routes tasks to specialized agents based on their capabilities")
    [agent_A; agent_B] (py "gemini/gemini-2.0-flash") (Some (py "secret"))
    (1 # 10) (py "dict") execute_task.

(** The router of the setting, with its attributes as [__init__] sets
    them. *)
Definition router : MultiAgentRouter.t World :=
  let agents := MultiAgentRouter.agents_by_name [agent_A; agent_B] in
  let prompt := MultiAgentRouter._create_boss_system_prompt agents in
  {| MultiAgentRouter.name := py "swarm-router";
     MultiAgentRouter.description :=
       py "Routes tasks to specialized agents based on their capabilities";
     MultiAgentRouter.output_type := py "dict";
     MultiAgentRouter.execute_task := true;
     MultiAgentRouter.model := py "gemini/gemini-2.0-flash";
     MultiAgentRouter.temperature := 1 # 10;
     MultiAgentRouter.agents := agents;
     MultiAgentRouter.api_key := Some (py "secret");
     MultiAgentRouter.boss_system_prompt := prompt;
     MultiAgentRouter.function_caller :=
       {| LiteLLMFunctionCaller.model_name := py "gemini/gemini-2.0-flash";
          LiteLLMFunctionCaller.system_prompt := prompt;
          LiteLLMFunctionCaller.api_key := Some (py "secret");
          LiteLLMFunctionCaller.temperature := 1 # 10;
          LiteLLMFunctionCaller.base_model :=
            Some AgentResponse_model_validate;
          LiteLLMFunctionCaller.max_tokens := 5000 |} |}.

(** The model caller of the router. *)
Definition caller : LiteLLMFunctionCaller.t AgentResponse :=
  MultiAgentRouter.function_caller router.

(** The state of the freshly constructed router, the counter at zero. *)
Definition start : MultiAgentRouter.State World :=
  MultiAgentRouter.initial_state 0%nat.

End Demo.

(** ** More of the concrete setting

    A handler that fails, routers with other registries or with execution
    disabled, a vision model, and a recommendation agent that does not
    answer in JSON. *)
Module Scenario.

#[local] Existing Instance Demo.externals.

(** Handler C always fails. *)
Definition agent_C : Agent.t World :=
  {| Agent.name := py "C"; Agent.id := py "agent-c";
     Agent.description := py "handles nothing";
     Agent.run task w := (Raise (RuntimeError (py "handler failed")), S w) |}.

(** The router of the setting, for other agents or without execution. *)
Definition router_of (agents : list (Agent.t World)) (execute_task : bool)
    : MultiAgentRouter.t World :=
  let registry := MultiAgentRouter.agents_by_name agents in
  let prompt := MultiAgentRouter._create_boss_system_prompt registry in
  {| MultiAgentRouter.name := py "swarm-router";
     MultiAgentRouter.description :=
       py "Routes tasks to specialized agents based on their capabilities";
     MultiAgentRouter.output_type := py "dict";
     MultiAgentRouter.execute_task := execute_task;
     MultiAgentRouter.model := py "gemini/gemini-2.0-flash";
     MultiAgentRouter.temperature := 1 # 10;
     MultiAgentRouter.agents := registry;
     MultiAgentRouter.api_key := Some (py "secret");
     MultiAgentRouter.boss_system_prompt := prompt;
     MultiAgentRouter.function_caller :=
       {| LiteLLMFunctionCaller.model_name := py "gemini/gemini-2.0-flash";
          LiteLLMFunctionCaller.system_prompt := prompt;
          LiteLLMFunctionCaller.api_key := Some (py "secret");
          LiteLLMFunctionCaller.temperature := 1 # 10;
          LiteLLMFunctionCaller.base_model :=
            Some AgentResponse_model_validate;
          LiteLLMFunctionCaller.max_tokens := 5000 |} |}.

(** Three handlers, the failing one among them. *)
Definition crowded : MultiAgentRouter.t World :=
  router_of [Demo.agent_A; Demo.agent_B; agent_C] true.

(** The two handlers of the setting, execution disabled. *)
Definition idle : MultiAgentRouter.t World :=
  router_of [Demo.agent_A; Demo.agent_B] false.

(** Only the greeting handler. *)
Definition lonely : MultiAgentRouter.t World :=
  router_of [Demo.agent_A] true.

(** A vision model that sees two bars, and pads its answer. *)
Definition vision (E : Externals) : @Vision E :=
  {| generate_content_text _ _ _ w :=
       (Return (Some (py "  two bars " ++ [10%N])), w) |}.

(** A vision model that cannot open the image. *)
Definition blind (E : Externals) : @Vision E :=
  {| generate_content_text _ _ _ w :=
       (Raise (RuntimeError (py "cannot identify image file")), w) |}.

(** A recommendation agent that apologises instead of answering in
    JSON. *)
Definition apologetic : Agent.t World :=
  {| Agent.name := py "Prompt Recommendation Expert";
     Agent.id := py "agent-r";
     Agent.description := [];
     Agent.run task w := (Return (py "Sorry, no idea."), S w) |}.

(** The extraction agent with its default prompt. *)
Definition extractor : ExtractAgent.t := ExtractAgent.__init__ None.

(** The text of a recommendation, and the object that it denotes. *)
Definition recommendation_text : pystr :=
  py "{" ++ Demo.quoted "recommended_prompts" ++ py ": ["
  ++ Demo.quoted "Compare the two bars" ++ py "]}".

Definition recommendation_value : json :=
  JDict [ (py "recommended_prompts",
           JList [JStr (py "Compare the two bars")]) ].

(** A parser that knows the recommendation as well. *)
Definition loads (s : pystr) : outcome json :=
  if bool_decide (PyStr.strip s = recommendation_text)
  then Return recommendation_value
  else Demo.loads s.

(** The drifting setting with this parser. *)
Definition advising : Externals :=
  {| World := nat;
     completion_content := @completion_content Demo.drifting;
     json_loads := loads;
     any_to_str := Demo.describe;
     datetime_now w := ((Z.of_nat w * 1000000)%Z, S w);
     isoformat t := py (DecimalString.NilZero.string_of_int (Z.to_int t));
     uuid4 w := (py "uuid-" ++ Demo.digits w, S w);
     getenv _ := None |}.

(** A handler whose answer depends on the moment at which it runs. *)
Definition moody : Agent.t World :=
  {| Agent.name := py "M"; Agent.id := py "agent-m";
     Agent.description := py "handles moods";
     Agent.run task w := (Return (Demo.digits w), S w) |}.

(** The two handlers of the setting and the moody one. *)
Definition mixed : MultiAgentRouter.t World :=
  router_of [Demo.agent_A; Demo.agent_B; moody] true.

(** A recommendation agent that answers between the two markers. *)
Definition helpful : Agent.t World :=
  {| Agent.name := py "Prompt Recommendation Expert";
     Agent.id := py "agent-r";
     Agent.description := [];
     Agent.run task w := (Return (fenced recommendation_text), S w) |}.

End Scenario.

(** * Properties *)

(** ** Stripping *)
Section Stripping.
Variable f : N -> bool.

Lemma lstrip_by_idem (s : pystr) :
  PyStr.lstrip_by f (PyStr.lstrip_by f s) = PyStr.lstrip_by f s.
Proof.
  induction s as [|c s IH]; simpl; [reflexivity|].
  destruct (f c) eqn:Hc; [exact IH|]. simpl. now rewrite Hc.
Qed.

Lemma lstrip_by_snoc_kept (s : pystr) (c : N) :
  f c = false -> PyStr.lstrip_by f (s ++ [c]) = PyStr.lstrip_by f s ++ [c].
Proof.
  intros Hc. induction s as [|a s IH]; simpl.
  - now rewrite Hc.
  - destruct (f a); [exact IH | reflexivity].
Qed.

Lemma rstrip_by_snoc_dropped (s : pystr) (c : N) :
  f c = true -> PyStr.rstrip_by f (s ++ [c]) = PyStr.rstrip_by f s.
Proof.
  intros Hc. unfold PyStr.rstrip_by.
  rewrite rev_unit. simpl. now rewrite Hc.
Qed.

Lemma rstrip_by_cons_kept (s : pystr) (c : N) :
  f c = false -> PyStr.rstrip_by f (c :: s) = c :: PyStr.rstrip_by f s.
Proof.
  intros Hc. unfold PyStr.rstrip_by. simpl.
  rewrite lstrip_by_snoc_kept by exact Hc. now rewrite rev_unit.
Qed.

Lemma rstrip_by_idem (s : pystr) :
  PyStr.rstrip_by f (PyStr.rstrip_by f s) = PyStr.rstrip_by f s.
Proof.
  unfold PyStr.rstrip_by. now rewrite rev_involutive, lstrip_by_idem.
Qed.

Lemma lstrip_by_left_clean (s : pystr) : PyStr.left_clean f (PyStr.lstrip_by f s).
Proof.
  induction s as [|c s IH]; simpl; [exact I|].
  destruct (f c) eqn:Hc; [exact IH | exact Hc].
Qed.

Lemma lstrip_by_of_left_clean (s : pystr) :
  PyStr.left_clean f s -> PyStr.lstrip_by f s = s.
Proof.
  destruct s as [|c s]; simpl; [reflexivity|]. now intros ->.
Qed.

Lemma rstrip_by_left_clean (s : pystr) :
  PyStr.left_clean f s -> PyStr.left_clean f (PyStr.rstrip_by f s).
Proof.
  destruct s as [|c s]; simpl; [intros _; exact I|].
  intros Hc. rewrite rstrip_by_cons_kept by exact Hc. exact Hc.
Qed.

Lemma strip_by_idem (s : pystr) :
  PyStr.strip_by f (PyStr.strip_by f s) = PyStr.strip_by f s.
Proof.
  unfold PyStr.strip_by.
  rewrite (lstrip_by_of_left_clean (PyStr.rstrip_by f _)).
  - apply rstrip_by_idem.
  - apply rstrip_by_left_clean, lstrip_by_left_clean.
Qed.

(** A stripped character on each side of a string does not change what is
    left after stripping. *)
Lemma strip_by_padded (s : pystr) (c : N) :
  f c = true -> PyStr.strip_by f (c :: s ++ [c]) = PyStr.strip_by f s.
Proof.
  intros Hc. unfold PyStr.strip_by. simpl. rewrite Hc.
  induction s as [|a s IH]; simpl.
  - now rewrite Hc.
  - destruct (f a) eqn:Ha; [exact IH|].
    change (a :: s ++ [c]) with ((a :: s) ++ [c]).
    now apply rstrip_by_snoc_dropped.
Qed.

(** A kept character on each side of a string stops the stripping. *)
Lemma strip_by_guarded (s : pystr) (c : N) :
  f c = false -> PyStr.strip_by f (c :: s ++ [c]) = c :: s ++ [c].
Proof.
  intros Hc. unfold PyStr.strip_by. simpl. rewrite Hc.
  unfold PyStr.rstrip_by. simpl. rewrite rev_unit. simpl. rewrite Hc.
  simpl. now rewrite rev_unit, rev_involutive.
Qed.

End Stripping.

(** Stripping the fence characters from both ends of a fenced reply stops
    at the line breaks around the text. *)
Lemma strip_chars_fenced (text : pystr) :
  PyStr.strip_chars (py "```json") (fenced text) = [10%N] ++ text ++ [10%N].
Proof.
  unfold PyStr.strip_chars, PyStr.strip_by, fenced.
  replace (PyStr.lstrip_by (PyStr.in_chars (py "```json"))
             (py "```json" ++ [10%N] ++ text ++ [10%N] ++ py "```"))
    with (10%N :: text ++ 10%N :: py "```") by reflexivity.
  unfold PyStr.rstrip_by.
  change (10%N :: text ++ 10%N :: py "```")
    with ([10%N] ++ text ++ 10%N :: py "```").
  rewrite !rev_app_distr. simpl.
  rewrite rev_unit. simpl. now rewrite rev_involutive.
Qed.

Lemma strip_fence_fenced `{Externals} (text : pystr) :
  LiteLLMFunctionCaller.strip_fence (fenced text) = PyStr.strip text.
Proof.
  unfold LiteLLMFunctionCaller.strip_fence.
  replace (PyStr.startswith (fenced text) (py "```json")) with true
    by reflexivity.
  rewrite strip_chars_fenced.
  unfold PyStr.strip_chars, PyStr.strip.
  change ([10%N] ++ text ++ [10%N]) with (10%N :: text ++ [10%N]).
  rewrite strip_by_guarded by reflexivity.
  now apply strip_by_padded.
Qed.

(** ** The model caller *)
Section CallerProperties.
Context `{Externals} {R : Type}.
Implicit Types (self : LiteLLMFunctionCaller.t R) (task content : pystr).

(** [run], case by case on what the endpoint answers. *)
Lemma run_cases self task (w : World) :
  LiteLLMFunctionCaller.run self task w =
  match completion_content (LiteLLMFunctionCaller.request self task) w with
  | (Return (Some content), w') =>
      (Return match LiteLLMFunctionCaller.decode self content with
              | Return r => Some r
              | Raise _ => None
              end, w')
  | (Return None, w') | (Raise _, w') => (Return None, w')
  end.
Proof.
  unfold LiteLLMFunctionCaller.run, LiteLLMFunctionCaller.run_body,
    try_except, bind, ret, raise, lift_outcome.
  destruct (completion_content _ w) as [[[content|]|e] w']; try reflexivity.
  now destruct (LiteLLMFunctionCaller.decode self content).
Qed.

(** [run] returns on every input: no exception leaves it. *)
Lemma run_returns self task (w : World) :
  exists r w', LiteLLMFunctionCaller.run self task w = (Return r, w').
Proof.
  rewrite run_cases.
  destruct (completion_content _ w) as [[[content|]|e] w']; eauto.
Qed.

(** C6: when the fence-stripped content of the reply does not parse as JSON,
    or parses to an object that the declared schema rejects, [run] returns
    [None]; it does not raise. *)
Theorem run_returns_None_on_decode_error self task content (w w' : World) :
  completion_content (LiteLLMFunctionCaller.request self task) w
    = (Return (Some content), w') ->
  (is_return (json_loads (LiteLLMFunctionCaller.strip_fence content)) = false
   \/ exists parsed model_validate,
        json_loads (LiteLLMFunctionCaller.strip_fence content) = Return parsed
        /\ LiteLLMFunctionCaller.base_model self = Some model_validate
        /\ is_return (model_validate parsed) = false) ->
  LiteLLMFunctionCaller.run self task w = (Return None, w').
Proof.
  intros Hreply Hbad. rewrite run_cases, Hreply.
  unfold LiteLLMFunctionCaller.decode.
  destruct Hbad as [Hparse | (parsed & validate & Hparse & Hmodel & Hvalid)].
  - now destruct (json_loads _).
  - rewrite Hparse, Hmodel. now destruct (validate parsed).
Qed.

(** What the code relies on from [json.loads]: white space around a JSON
    text is skipped, and a JSON text does not begin with a fence. *)
Section JsonText.
Hypothesis json_loads_skips_space : forall (text : pystr) (value : json),
  json_loads text = Return value ->
  json_loads (PyStr.strip text) = Return value.
Hypothesis json_text_not_fenced : forall (text : pystr) (value : json),
  json_loads text = Return value ->
  PyStr.startswith text (py "```json") = false.

Lemma decode_fenced self (text : pystr) (value : json) :
  json_loads text = Return value ->
  LiteLLMFunctionCaller.decode self (fenced text)
  = LiteLLMFunctionCaller.decode self text.
Proof.
  intros Htext. unfold LiteLLMFunctionCaller.decode.
  rewrite strip_fence_fenced.
  unfold LiteLLMFunctionCaller.strip_fence at 1.
  rewrite (json_text_not_fenced _ _ Htext).
  now rewrite (json_loads_skips_space _ _ Htext), Htext.
Qed.

(** C7: for a JSON text [text] that denotes the object [value], [run]
    parses the same object from a reply whose content is [text] between a
    leading and a trailing fence as from a reply whose content is [text]
    itself, and this object is [value]: without a schema both calls return
    [value], with a schema both return what the schema makes of [value]. *)
Theorem run_fenced_reply_same_as_bare self task (text : pystr) (value : json)
    (w1 w1' w2 w2' : World) :
  json_loads text = Return value ->
  completion_content (LiteLLMFunctionCaller.request self task) w1
    = (Return (Some (fenced text)), w1') ->
  completion_content (LiteLLMFunctionCaller.request self task) w2
    = (Return (Some text), w2') ->
  fst (LiteLLMFunctionCaller.run self task w1)
  = fst (LiteLLMFunctionCaller.run self task w2)
  /\ fst (LiteLLMFunctionCaller.run self task w1)
     = Return match LiteLLMFunctionCaller.base_model self with
              | Some model_validate =>
                  match model_validate value with
                  | Return r => Some (Validated r)
                  | Raise _ => None
                  end
              | None => Some (Parsed value)
              end.
Proof.
  intros Htext Hfenced Hbare.
  rewrite !run_cases, Hfenced, Hbare. simpl.
  rewrite (decode_fenced _ _ _ Htext). split; [reflexivity|].
  unfold LiteLLMFunctionCaller.decode,
    LiteLLMFunctionCaller.strip_fence.
  rewrite (json_text_not_fenced _ _ Htext), Htext.
  destruct (LiteLLMFunctionCaller.base_model self) as [model_validate|];
    [|reflexivity].
  now destruct (model_validate value).
Qed.

End JsonText.

(** [batch_run] returns, and its result has one entry per task. *)
Lemma caller_batch_run_length self (tasks : list pystr) (w : World) :
  exists results w',
    LiteLLMFunctionCaller.batch_run self tasks w = (Return results, w')
    /\ length results = length tasks.
Proof.
  revert w. induction tasks as [|task tasks IH]; intros w; simpl.
  - now exists [], w.
  - unfold bind. destruct (run_returns self task w) as (r & w1 & ->).
    destruct (IH w1) as (rs & w2 & -> & Hlen).
    exists (r :: rs), w2. simpl. now rewrite Hlen.
Qed.

(** With a [run] that is a function of the task, the result of [batch_run]
    holds at each position what [run] answers for the task at that position;
    a task that fails contributes [None] there. *)
Lemma caller_batch_run_positional self (tasks : list pystr) (w w0 : World) :
  LiteLLMFunctionCaller.run_deterministic self ->
  fst (LiteLLMFunctionCaller.batch_run self tasks w)
  = Return (List.map (fun task => LiteLLMFunctionCaller.answer self task w0)
                     tasks).
Proof.
  intros Hdet. revert w. induction tasks as [|task tasks IH]; intros w;
    [reflexivity|].
  simpl. unfold bind.
  pose proof (Hdet task w w0) as Hsame.
  unfold LiteLLMFunctionCaller.answer.
  destruct (run_returns self task w) as (r & w1 & Hrun).
  rewrite Hrun in *. simpl in Hsame. rewrite <- Hsame.
  specialize (IH w1).
  destruct (LiteLLMFunctionCaller.batch_run self tasks w1) as [o w2].
  simpl in IH. subst o. reflexivity.
Qed.

(** The workers of the pool fill the slot of every position they run. *)
Lemma pool_map_fills self (tasks : list pystr) (w0 : World) :
  LiteLLMFunctionCaller.run_deterministic self ->
  forall (order done : list nat)
         (slots : list (option (option (run_result R)))) (w : World),
    length slots = length tasks ->
    (forall i task, tasks !! i = Some task ->
       slots !! i
       = Some (if bool_decide (i ∈ done)
               then Some (LiteLLMFunctionCaller.answer self task w0)
               else None)) ->
    exists slots' w',
      LiteLLMFunctionCaller.pool_map self tasks order slots w
      = (Return slots', w')
      /\ length slots' = length tasks
      /\ forall i task, tasks !! i = Some task ->
           slots' !! i
           = Some (if bool_decide (i ∈ order ++ done)
                   then Some (LiteLLMFunctionCaller.answer self task w0)
                   else None).
Proof.
  intros Hdet order.
  induction order as [|i order IH]; intros done slots w Hlen Hslots.
  - exists slots, w. auto.
  - simpl. destruct (tasks !! i) as [task|] eqn:Hi.
    + unfold bind.
      pose proof (Hdet task w w0) as Hsame.
      destruct (run_returns self task w) as (r & w1 & Hrun).
      rewrite Hrun.
      assert (Hr : r = LiteLLMFunctionCaller.answer self task w0).
      { unfold LiteLLMFunctionCaller.answer. rewrite <- Hsame, Hrun.
        reflexivity. }
      destruct (IH (i :: done) (<[i := Some r]> slots) w1)
        as (slots' & w' & Hpool & Hlen' & Hslots').
      * now rewrite length_insert.
      * intros j task' Hj. destruct (decide (i = j)) as [<-|Hne].
        -- rewrite list_lookup_insert_eq
             by (rewrite Hlen; eapply lookup_lt_Some, Hi).
           rewrite bool_decide_eq_true_2 by (left).
           congruence.
        -- rewrite list_lookup_insert_ne by exact Hne.
           rewrite (Hslots j task' Hj).
           assert (Hb : bool_decide (j ∈ done) = bool_decide (j ∈ i :: done))
             by (apply bool_decide_ext; rewrite elem_of_cons;
                 split; [tauto | intros [Heq|Hin]; [congruence | exact Hin]]).
           now rewrite Hb.
      * exists slots', w'. split; [exact Hpool|]. split; [exact Hlen'|].
        intros j task' Hj. rewrite (Hslots' j task' Hj).
        assert (Hb : bool_decide (j ∈ order ++ i :: done)
                     = bool_decide (j ∈ (i :: order) ++ done))
          by (apply bool_decide_ext;
              rewrite !elem_of_app, !elem_of_cons; tauto).
        now rewrite Hb.
    + destruct (IH done slots w Hlen Hslots)
        as (slots' & w' & Hpool & Hlen' & Hslots').
      exists slots', w'. split; [exact Hpool|]. split; [exact Hlen'|].
      intros j task' Hj. rewrite (Hslots' j task' Hj).
      assert (Hb : bool_decide (j ∈ order ++ done)
                   = bool_decide (j ∈ (i :: order) ++ done)).
      { apply bool_decide_ext. rewrite !elem_of_app, !elem_of_cons.
        split; [tauto|]. intros [[->|Hin]|Hin]; [congruence|tauto|tauto]. }
      now rewrite Hb.
Qed.

(** X25: on a list that is not empty, with a [run] that is a function of
    the task and a pool that runs every position once, [concurrent_run]
    returns what [batch_run] returns, in input order. *)
Lemma caller_concurrent_run_agrees_with_batch_run self (tasks : list pystr)
    (order : list nat) (w w' : World) :
  LiteLLMFunctionCaller.run_deterministic self ->
  tasks <> [] ->
  Permutation order (seq 0 (length tasks)) ->
  fst (LiteLLMFunctionCaller.concurrent_run order self tasks w)
  = fst (LiteLLMFunctionCaller.batch_run self tasks w').
Proof.
  intros Hdet Hne Horder.
  rewrite (caller_batch_run_positional self tasks w' w Hdet).
  unfold LiteLLMFunctionCaller.concurrent_run.
  destruct tasks as [|task0 tasks0] eqn:Htasks; [congruence|].
  rewrite <- Htasks in *.
  replace (length tasks <=? 0)%nat with false
    by (rewrite Htasks; reflexivity).
  unfold bind, ret.
  destruct (pool_map_fills self tasks w Hdet order []
              (replicate (length tasks) None) w)
    as (slots & w1 & Hpool & Hlen & Hslots).
  { apply length_replicate. }
  { intros i task Hi. rewrite lookup_replicate_2
      by (eapply lookup_lt_Some, Hi).
    reflexivity. }
  rewrite Hpool. simpl. f_equal.
  assert (Hall : slots
                 = List.map (fun task =>
                     Some (LiteLLMFunctionCaller.answer self task w)) tasks).
  { apply list_eq. intros i.
    change (List.map ?f tasks) with (f <$> tasks).
    rewrite list_lookup_fmap.
    destruct (tasks !! i) as [task|] eqn:Hi; simpl.
    - rewrite (Hslots i task Hi). rewrite bool_decide_eq_true_2; [reflexivity|].
      rewrite app_nil_r. rewrite Horder. apply elem_of_seq.
      apply lookup_lt_Some in Hi. lia.
    - apply lookup_ge_None. rewrite Hlen. now apply lookup_ge_None. }
  rewrite Hall. clear.
  induction tasks as [|task tasks IH]; [reflexivity|].
  cbn. now rewrite IH.
Qed.

(** C5, at the empty list: [batch_run] returns the empty list, and
    [concurrent_run] raises [ValueError], whatever the pool would do. *)
Theorem caller_concurrent_run_empty_raises self (order : list nat) (w : World) :
  LiteLLMFunctionCaller.batch_run self [] w = (Return [], w)
  /\ LiteLLMFunctionCaller.concurrent_run order self [] w
     = (Raise (ValueError (py "max_workers must be greater than 0")), w).
Proof. split; reflexivity. Qed.

End CallerProperties.

(** ** The router *)
Section RouterProperties.
Context `{Externals}.
Implicit Types (self : MultiAgentRouter.t World) (task : pystr)
  (s : MultiAgentRouter.State World).

Lemma route_task_no_decision self task s :
  (forall d, MultiAgentRouter.boss_response_at self task s
             <> Some (Validated d)) ->
  exists e, MultiAgentRouter.route_task self task s
            = (Raise e, MultiAgentRouter.after_decision self task s).
Proof.
  intros Hnone.
  unfold MultiAgentRouter.after_decision,
    MultiAgentRouter.boss_response_at in *.
  unfold MultiAgentRouter.route_task, try_except, bind,
    MultiAgentRouter.conversation_add, MultiAgentRouter.now,
    MultiAgentRouter.in_world, MultiAgentRouter.attributes, raise, ret.
  simpl.
  destruct (datetime_now (MultiAgentRouter.world s)) as [t0 w1]. simpl in *.
  destruct (run_returns (MultiAgentRouter.function_caller self) task w1)
    as (r & w2 & Hrun).
  rewrite Hrun in *. simpl in *.
  destruct r as [[d|j]|]; simpl; rewrite <- ?app_assoc; simpl; eauto.
  now destruct (Hnone d).
Qed.

(** What [route_task] does, seen through the fields of its record that do
    not come from the clock or the UUID generator. *)
Lemma route_task_outcome self task s :
  outcome_map record_content (fst (MultiAgentRouter.route_task self task s)) =
  match MultiAgentRouter.boss_response_at self task s with
  | Some (Validated d) =>
      match PyDict.get (selected_agent d) (MultiAgentRouter.agents self) with
      | None =>
          Raise (ValueError (py "Boss selected unknown agent: "
                               ++ selected_agent d))
      | Some a =>
          if MultiAgentRouter.execute_task self then
            match fst (Agent.run a task
                         (MultiAgentRouter.execution_world self task s)) with
            | Return agent_response =>
                Return (MultiAgentRouter.routed_content self task d a
                          (Some agent_response))
            | Raise e => Raise e
            end
          else Return (MultiAgentRouter.routed_content self task d a None)
      end
  | Some (Parsed _) =>
      Raise (AttributeError
               (py "'dict' object has no attribute 'selected_agent'"))
  | None =>
      Raise (AttributeError
               (py "'NoneType' object has no attribute 'selected_agent'"))
  end.
Proof.
  unfold MultiAgentRouter.execution_world, MultiAgentRouter.after_decision,
    MultiAgentRouter.boss_response_at.
  unfold MultiAgentRouter.route_task, try_except, bind,
    MultiAgentRouter.conversation_add, MultiAgentRouter.now,
    MultiAgentRouter.new_uuid, MultiAgentRouter.invoke,
    MultiAgentRouter.getitem, MultiAgentRouter.in_world,
    MultiAgentRouter.attributes, PyDict.mem, raise, ret.
  simpl.
  destruct (datetime_now (MultiAgentRouter.world s)) as [t0 w1]. simpl.
  destruct (run_returns (MultiAgentRouter.function_caller self) task w1)
    as (r & w2 & Hrun).
  rewrite Hrun. simpl.
  destruct r as [[d|j]|]; simpl; try reflexivity.
  destruct (PyDict.get (selected_agent d) (MultiAgentRouter.agents self))
    as [a|]; simpl; [|reflexivity].
  destruct (datetime_now w2) as [t1 w3]. simpl.
  destruct (MultiAgentRouter.execute_task self) eqn:Hexec; simpl.
  - destruct (Agent.run a task w3) as [[agent_response|e] w4]; simpl;
      [|reflexivity].
    destruct (datetime_now w4) as [t2 w5]. simpl.
    destruct (datetime_now w5) as [t3 w6]. simpl.
    destruct (uuid4 w6) as [u w7]. simpl.
    destruct (datetime_now w7) as [t4 w8]. simpl.
    unfold record_content, MultiAgentRouter.routed_content. simpl.
    now rewrite Hexec.
  - destruct (datetime_now w3) as [t3 w6]. simpl.
    destruct (uuid4 w6) as [u w7]. simpl.
    destruct (datetime_now w7) as [t4 w8]. simpl.
    unfold record_content, MultiAgentRouter.routed_content. simpl.
    now rewrite Hexec.
Qed.

(** What [route_task] leaves in the conversation log and in the list of
    handler invocations. *)
Lemma route_task_effects self task s :
  let s' := snd (MultiAgentRouter.route_task self task s) in
  let s2 := MultiAgentRouter.after_decision self task s in
  match MultiAgentRouter.boss_response_at self task s with
  | Some (Validated d) =>
      match PyDict.get (selected_agent d) (MultiAgentRouter.agents self) with
      | Some a =>
          if MultiAgentRouter.execute_task self then
            MultiAgentRouter.calls s'
            = MultiAgentRouter.calls s
              ++ [ {| callee := Agent.name a; argument := task |} ]
            /\ MultiAgentRouter.conversation s'
               = MultiAgentRouter.conversation s2
                 ++ match fst (Agent.run a task
                            (MultiAgentRouter.execution_world self task s)) with
                    | Return agent_response =>
                        [ {| role := Agent.name a; content := agent_response |} ]
                    | Raise _ => []
                    end
          else
            MultiAgentRouter.calls s' = MultiAgentRouter.calls s
            /\ MultiAgentRouter.conversation s'
               = MultiAgentRouter.conversation s2
      | None => s' = s2
      end
  | _ => s' = s2
  end.
Proof.
  unfold MultiAgentRouter.execution_world, MultiAgentRouter.after_decision,
    MultiAgentRouter.boss_response_at.
  unfold MultiAgentRouter.route_task, try_except, bind,
    MultiAgentRouter.conversation_add, MultiAgentRouter.now,
    MultiAgentRouter.new_uuid, MultiAgentRouter.invoke,
    MultiAgentRouter.getitem, MultiAgentRouter.in_world,
    MultiAgentRouter.attributes, PyDict.mem, raise, ret.
  simpl.
  destruct (datetime_now (MultiAgentRouter.world s)) as [t0 w1]. simpl.
  destruct (run_returns (MultiAgentRouter.function_caller self) task w1)
    as (r & w2 & Hrun).
  rewrite Hrun. simpl.
  destruct r as [[d|j]|]; simpl; rewrite <- ?app_assoc; try reflexivity.
  destruct (PyDict.get (selected_agent d) (MultiAgentRouter.agents self))
    as [a|]; simpl; [|reflexivity].
  destruct (datetime_now w2) as [t1 w3]. simpl.
  destruct (MultiAgentRouter.execute_task self) eqn:Hexec; simpl.
  - destruct (Agent.run a task w3) as [[agent_response|e] w4]; simpl.
    + destruct (datetime_now w4) as [t2 w5]. simpl.
      destruct (datetime_now w5) as [t3 w6]. simpl.
      destruct (uuid4 w6) as [u w7]. simpl.
      destruct (datetime_now w7) as [t4 w8]. simpl.
      split; [reflexivity|]. now rewrite <- ?app_assoc.
    + split; [reflexivity|]. now rewrite app_nil_r, <- ?app_assoc.
  - destruct (datetime_now w3) as [t3 w6]. simpl.
    destruct (uuid4 w6) as [u w7]. simpl.
    destruct (datetime_now w7) as [t4 w8]. simpl.
    split; [reflexivity|]. now rewrite <- ?app_assoc.
Qed.

Lemma outcome_map_return {A B} (f : A -> B) (o : outcome A) (b : B) :
  outcome_map f o = Return b -> exists a, o = Return a /\ f a = b.
Proof. destruct o as [a|e]; simpl; [|discriminate]. intros [= <-]. eauto. Qed.

Lemma outcome_map_raise {A B} (f : A -> B) (o : outcome A) (e : exn) :
  outcome_map f o = Raise e -> o = Raise e.
Proof. destruct o as [a|e']; simpl; [discriminate|]. now intros [= <-]. Qed.

Lemma mem_keys {V} (key : pystr) (d : PyDict.t V) :
  PyDict.mem key d = true <-> In key (PyDict.keys d).
Proof.
  unfold PyDict.mem, PyDict.keys.
  induction d as [|[k v] d IH]; simpl.
  - split; [discriminate | intros []].
  - destruct (decide (key = k)) as [->|Hne].
    + split; auto.
    + rewrite IH. split; [auto | intros [Heq|Hin]; [congruence | exact Hin]].
Qed.

Lemma set_keys {V} (key k : pystr) (v : V) (d : PyDict.t V) :
  In key (PyDict.keys (PyDict.set k v d)) <-> key = k \/ In key (PyDict.keys d).
Proof.
  unfold PyDict.keys. induction d as [|[k' v'] d IH]; simpl.
  - split; [intros [<-|[]]; auto | intros [->|[]]; auto].
  - destruct (decide (k = k')) as [->|Hne]; simpl.
    + split; [intros [<-|Hin]; auto | intros [->|[<-|Hin]]; auto].
    + rewrite IH.
      split; [intros [<-|[->|Hin]]; auto | intros [->|[<-|Hin]]; auto].
Qed.

(** The keys of the registry are the names of the agents given to the
    constructor. *)
Lemma agents_by_name_keys (agents : list (Agent.t World)) (key : pystr) :
  In key (PyDict.keys (MultiAgentRouter.agents_by_name agents))
  <-> In key (List.map Agent.name agents).
Proof.
  unfold MultiAgentRouter.agents_by_name.
  assert (Hgen : forall d,
    In key (PyDict.keys
              (fold_left (fun d agent => PyDict.set (Agent.name agent) agent d)
                         agents d))
    <-> In key (PyDict.keys d) \/ In key (List.map Agent.name agents)).
  { induction agents as [|a agents IH]; intros d; simpl.
    - tauto.
    - rewrite IH, set_keys. split; intros; intuition congruence. }
  rewrite Hgen. simpl. tauto.
Qed.

(** What a returned record says, in terms of the decision and of the
    selected handler. *)
Lemma route_task_return_inv self task s (record : TaskRecord)
    (s' : MultiAgentRouter.State World) :
  MultiAgentRouter.route_task self task s = (Return record, s') ->
  exists d a agent_response,
    MultiAgentRouter.boss_response_at self task s = Some (Validated d)
    /\ PyDict.get (selected_agent d) (MultiAgentRouter.agents self) = Some a
    /\ record_content record
       = MultiAgentRouter.routed_content self task d a agent_response.
Proof.
  intros Hroute.
  pose proof (route_task_outcome self task s) as Hout.
  rewrite Hroute in Hout. simpl in Hout.
  destruct (MultiAgentRouter.boss_response_at self task s) as [[d|j]|];
    try discriminate.
  destruct (PyDict.get (selected_agent d) (MultiAgentRouter.agents self))
    as [a|] eqn:Hget; try discriminate.
  destruct (MultiAgentRouter.execute_task self).
  - destruct (fst (Agent.run a task _)) as [agent_response|e];
      try discriminate.
    exists d, a, (Some agent_response). repeat split; congruence.
  - exists d, a, None. repeat split; congruence.
Qed.

(** C1: a record that [route_task] returns names a registered handler in
    [boss_decision.selected_agent]; and when the decision step answers with
    a name that is not registered, [route_task] raises, so that no record
    is returned. *)
Theorem route_task_selects_registered_agent self task s :
  (forall (record : TaskRecord) (s' : MultiAgentRouter.State World),
      MultiAgentRouter.route_task self task s = (Return record, s') ->
      In (decision_selected_agent (boss_decision record))
         (PyDict.keys (MultiAgentRouter.agents self)))
  /\ (forall d : AgentResponse,
        MultiAgentRouter.boss_response_at self task s = Some (Validated d) ->
        ~ In (selected_agent d) (PyDict.keys (MultiAgentRouter.agents self)) ->
        exists s' : MultiAgentRouter.State World,
          MultiAgentRouter.route_task self task s
          = (Raise (ValueError (py "Boss selected unknown agent: "
                                  ++ selected_agent d)), s')).
Proof.
  split.
  - intros record s' Hroute.
    destruct (route_task_return_inv _ _ _ _ _ Hroute)
      as (d & a & r & _ & Hget & Hcontent).
    apply (f_equal content_decision) in Hcontent. simpl in Hcontent.
    rewrite Hcontent. simpl.
    apply mem_keys. unfold PyDict.mem. now rewrite Hget.
  - intros d Hd Hnot.
    pose proof (route_task_outcome self task s) as Hout.
    rewrite Hd in Hout.
    destruct (PyDict.get (selected_agent d) (MultiAgentRouter.agents self))
      as [a|] eqn:Hget.
    + destruct Hnot. apply mem_keys. unfold PyDict.mem. now rewrite Hget.
    + apply outcome_map_raise in Hout.
      destruct (MultiAgentRouter.route_task self task s) as [o s'].
      simpl in Hout. subst o. now exists s'.
Qed.

(** The two task fields of a returned record: [original] is the caller's
    text, and [modified] is the caller's text again when the decision
    carries a non-empty modified task, [None] otherwise. *)
Lemma route_task_task_fields self (text : pystr) s (record : TaskRecord)
    (s' : MultiAgentRouter.State World) :
  MultiAgentRouter.route_task self text s = (Return record, s') ->
  exists d,
    MultiAgentRouter.boss_response_at self text s = Some (Validated d)
    /\ original (task record) = text
    /\ modified (task record)
       = if PyStr.truthy (modified_task d) then Some text else None.
Proof.
  intros Hroute.
  destruct (route_task_return_inv _ _ _ _ _ Hroute)
    as (d & a & r & Hd & _ & Hcontent).
  apply (f_equal content_task) in Hcontent. simpl in Hcontent.
  exists d. rewrite Hcontent. simpl. auto.
Qed.

(** With execution enabled and a registered handler selected, the world
    after [route_task] is the one that the handler's run on the caller's
    task left, read on success three more times by the clock and once by
    the UUID generator. *)
Lemma route_task_world_after_execution self task s (d : AgentResponse)
    (a : Agent.t World) :
  MultiAgentRouter.execute_task self = true ->
  MultiAgentRouter.boss_response_at self task s = Some (Validated d) ->
  PyDict.get (selected_agent d) (MultiAgentRouter.agents self) = Some a ->
  MultiAgentRouter.world (snd (MultiAgentRouter.route_task self task s))
  = match fst (Agent.run a task
                 (MultiAgentRouter.execution_world self task s)) with
    | Return _ =>
        MultiAgentRouter.closing_world
          (snd (Agent.run a task
                  (MultiAgentRouter.execution_world self task s)))
    | Raise _ =>
        snd (Agent.run a task (MultiAgentRouter.execution_world self task s))
    end.
Proof.
  unfold MultiAgentRouter.closing_world,
    MultiAgentRouter.execution_world, MultiAgentRouter.after_decision,
    MultiAgentRouter.boss_response_at.
  unfold MultiAgentRouter.route_task, try_except, bind,
    MultiAgentRouter.conversation_add, MultiAgentRouter.now,
    MultiAgentRouter.new_uuid, MultiAgentRouter.invoke,
    MultiAgentRouter.getitem, MultiAgentRouter.in_world,
    MultiAgentRouter.attributes, PyDict.mem, raise, ret.
  simpl.
  destruct (datetime_now (MultiAgentRouter.world s)) as [t0 w1]. simpl.
  destruct (run_returns (MultiAgentRouter.function_caller self) task w1)
    as (r & w2 & Hrun).
  rewrite Hrun. simpl.
  intros Hexec Hd Hget. subst r. simpl. rewrite Hget. simpl.
  destruct (datetime_now w2) as [t1 w3]. simpl.
  rewrite Hexec. simpl.
  destruct (Agent.run a task w3) as [[agent_response|e] w4]; simpl;
    [|reflexivity].
  destruct (datetime_now w4) as [t2 w5]. simpl.
  destruct (datetime_now w5) as [t3 w6]. simpl.
  destruct (uuid4 w6) as [u w7]. simpl.
  destruct (datetime_now w7) as [t4 w8]. reflexivity.
Qed.

(** C3: with execution enabled, whatever decision the model returns for a
    registered handler (with or without a modified task), [route_task]
    runs the entry point of that handler exactly once, on the task text
    that the caller supplied: the one invocation it adds has this text as
    its argument, the response of the record is what the handler's run on
    this text returns (and what that run raises, [route_task] raises), and
    the world goes on from where that run left it. *)
Theorem route_task_executes_original_task self task s (d : AgentResponse)
    (a : Agent.t World) :
  MultiAgentRouter.execute_task self = true ->
  MultiAgentRouter.boss_response_at self task s = Some (Validated d) ->
  PyDict.get (selected_agent d) (MultiAgentRouter.agents self) = Some a ->
  MultiAgentRouter.calls (snd (MultiAgentRouter.route_task self task s))
  = MultiAgentRouter.calls s
    ++ [ {| callee := Agent.name a; argument := task |} ]
  /\ outcome_map (fun record => response (execution record))
       (fst (MultiAgentRouter.route_task self task s))
     = outcome_map Some
         (fst (Agent.run a task
                 (MultiAgentRouter.execution_world self task s)))
  /\ MultiAgentRouter.world (snd (MultiAgentRouter.route_task self task s))
     = match fst (Agent.run a task
                    (MultiAgentRouter.execution_world self task s)) with
       | Return _ =>
           MultiAgentRouter.closing_world
             (snd (Agent.run a task
                     (MultiAgentRouter.execution_world self task s)))
       | Raise _ =>
           snd (Agent.run a task
                  (MultiAgentRouter.execution_world self task s))
       end.
Proof.
  intros Hexec Hd Hget. split; [|split].
  - pose proof (route_task_effects self task s) as Heff. simpl in Heff.
    rewrite Hd, Hget, Hexec in Heff. apply Heff.
  - pose proof (route_task_outcome self task s) as Hout.
    rewrite Hd, Hget, Hexec in Hout.
    destruct (fst (MultiAgentRouter.route_task self task s))
      as [record|e];
      destruct (fst (Agent.run a task _)) as [agent_response|e'];
      simpl in *; try discriminate.
    + apply (f_equal (outcome_map content_response)) in Hout.
      exact Hout.
    + congruence.
  - now apply (route_task_world_after_execution self task s d a).
Qed.

(** Every invocation that [route_task] adds has the caller's task text as
    its argument. *)
Lemma route_task_calls_only_original self task s :
  exists added : list Call,
    MultiAgentRouter.calls (snd (MultiAgentRouter.route_task self task s))
    = MultiAgentRouter.calls s ++ added
    /\ Forall (fun call => argument call = task) added.
Proof.
  pose proof (route_task_effects self task s) as Heff. simpl in Heff.
  destruct (MultiAgentRouter.boss_response_at self task s) as [[d|j]|];
    try (exists []; rewrite Heff, app_nil_r; split; [reflexivity|constructor]).
  destruct (PyDict.get (selected_agent d) (MultiAgentRouter.agents self))
    as [a|];
    try (exists []; rewrite Heff, app_nil_r; split; [reflexivity|constructor]).
  destruct (MultiAgentRouter.execute_task self); destruct Heff as [Hcalls _].
  - eexists. split; [exact Hcalls|]. repeat constructor.
  - exists []. rewrite Hcalls, app_nil_r. split; [reflexivity|constructor].
Qed.

(** C10: when the decision step names a handler that is not registered,
    [route_task] raises, and the conversation log has grown by exactly two
    turns: the user turn with the task and the assistant turn with the
    stringified decision. *)
Theorem route_task_unknown_agent_leaves_two_turns self task s
    (d : AgentResponse) :
  MultiAgentRouter.boss_response_at self task s = Some (Validated d) ->
  PyDict.mem (selected_agent d) (MultiAgentRouter.agents self) = false ->
  exists s' : MultiAgentRouter.State World,
    MultiAgentRouter.route_task self task s
    = (Raise (ValueError (py "Boss selected unknown agent: "
                            ++ selected_agent d)), s')
    /\ MultiAgentRouter.conversation s'
       = MultiAgentRouter.conversation s
         ++ [ {| role := py "user"; content := task |};
              {| role := py "assistant";
                 content := any_to_str (Some (Validated d)) |} ].
Proof.
  intros Hd Hmem.
  assert (Hget : PyDict.get (selected_agent d) (MultiAgentRouter.agents self)
                 = None).
  { unfold PyDict.mem in Hmem. now destruct (PyDict.get _ _). }
  pose proof (route_task_outcome self task s) as Hout.
  pose proof (route_task_effects self task s) as Heff. simpl in Heff.
  rewrite Hd, Hget in Hout, Heff.
  apply outcome_map_raise in Hout.
  destruct (MultiAgentRouter.route_task self task s) as [o s'].
  simpl in Hout, Heff. subst o s'.
  eexists. split; [reflexivity|].
  unfold MultiAgentRouter.after_decision. simpl. now rewrite Hd.
Qed.


(** With a deterministic decision step and a deterministic selected
    handler, whatever the other registered handlers are, what [route_task]
    does with a task is the same in every state, up to the fields drawn
    from the clock and the UUID generator. *)
Lemma route_task_content_selected_deterministic self task
    (s1 s2 : MultiAgentRouter.State World) :
  MultiAgentRouter.decision_deterministic self task ->
  MultiAgentRouter.selected_handler_deterministic self task s1 ->
  outcome_map record_content
    (fst (MultiAgentRouter.route_task self task s1))
  = outcome_map record_content
      (fst (MultiAgentRouter.route_task self task s2)).
Proof.
  intros Hdec Hrun. rewrite !route_task_outcome.
  assert (Hsame : MultiAgentRouter.boss_response_at self task s2
                  = MultiAgentRouter.boss_response_at self task s1).
  { unfold MultiAgentRouter.boss_response_at.
    now rewrite (Hdec _ (snd (datetime_now (MultiAgentRouter.world s1)))). }
  rewrite Hsame.
  destruct (MultiAgentRouter.boss_response_at self task s1) as [[d|j]|]
    eqn:Hd; try reflexivity.
  destruct (PyDict.get (selected_agent d) (MultiAgentRouter.agents self))
    as [a|] eqn:Hget; try reflexivity.
  now rewrite (Hrun d a Hd Hget _
                 (MultiAgentRouter.execution_world self task s2)).
Qed.

(** C9: with a deterministic decision step and a deterministic selected
    handler (nothing is assumed of the handlers that are not selected), a
    second call of [route_task] on the same task, right after a first one
    that returned a record, returns a record with the same selected agent
    and the same response; the two records differ at most in [id],
    [timestamp], [execution_time] and [total_time]. *)
Theorem route_task_twice_same_content self task s (r1 : TaskRecord)
    (s1 : MultiAgentRouter.State World) :
  MultiAgentRouter.decision_deterministic self task ->
  MultiAgentRouter.selected_handler_deterministic self task s ->
  MultiAgentRouter.route_task self task s = (Return r1, s1) ->
  exists (r2 : TaskRecord) (s2 : MultiAgentRouter.State World),
    MultiAgentRouter.route_task self task s1 = (Return r2, s2)
    /\ decision_selected_agent (boss_decision r1)
       = decision_selected_agent (boss_decision r2)
    /\ response (execution r1) = response (execution r2)
    /\ record_content r1 = record_content r2.
Proof.
  intros Hdec Hrun Hfirst.
  pose proof (route_task_content_selected_deterministic self task s s1
                Hdec Hrun) as Hsame.
  rewrite Hfirst in Hsame. simpl in Hsame. symmetry in Hsame.
  apply outcome_map_return in Hsame as (r2 & Hsecond & Hcontent).
  destruct (MultiAgentRouter.route_task self task s1) as [o s2].
  simpl in Hsecond. subst o.
  exists r2, s2. split; [reflexivity|].
  split; [|split]; [| |now symmetry].
  - now apply (f_equal (fun c => decision_selected_agent (content_decision c)))
      in Hcontent.
  - now apply (f_equal content_response) in Hcontent.
Qed.

(** ** Batches *)

Lemma route_each_length self (tasks : list pystr) s :
  length (fst (MultiAgentRouter.route_each self tasks s)) = length tasks.
Proof.
  revert s. induction tasks as [|task tasks IH]; intros s; simpl;
    [reflexivity|].
  destruct (MultiAgentRouter.route_task self task s) as [o s1].
  specialize (IH s1).
  destruct (MultiAgentRouter.route_each self tasks s1) as [os s2].
  simpl in *. now rewrite IH.
Qed.

(** The loop of [batch_run] routes every task, in order, each in the state
    that the previous call left, and appends the records of the calls that
    returned. *)
Lemma batch_loop_route_each self (tasks : list pystr)
    (results : list TaskRecord) s :
  MultiAgentRouter.batch_loop self tasks results s
  = (Return (results
             ++ successes (fst (MultiAgentRouter.route_each self tasks s))),
     snd (MultiAgentRouter.route_each self tasks s)).
Proof.
  revert results s.
  induction tasks as [|task tasks IH]; intros results s; simpl.
  - unfold ret, successes. simpl. now rewrite app_nil_r.
  - unfold bind at 1. unfold try_except, bind, ret.
    destruct (MultiAgentRouter.route_task self task s) as [[record|e] s1];
      rewrite IH;
      destruct (MultiAgentRouter.route_each self tasks s1) as [os s2];
      simpl; [now rewrite <- app_assoc | reflexivity].
Qed.

Lemma batch_run_route_each self (tasks : list pystr) s :
  MultiAgentRouter.batch_run self tasks s
  = (Return (successes (fst (MultiAgentRouter.route_each self tasks s))),
     snd (MultiAgentRouter.route_each self tasks s)).
Proof. unfold MultiAgentRouter.batch_run. now rewrite batch_loop_route_each. Qed.

Lemma successes_all_returned {A} (outcomes : list (outcome A)) :
  (forall i o, outcomes !! i = Some o -> is_return o = true) ->
  List.map Return (successes outcomes) = outcomes.
Proof.
  induction outcomes as [|o outcomes IH]; intros Hall; [reflexivity|].
  pose proof (Hall 0%nat o eq_refl) as Ho.
  destruct o as [a|e]; [|discriminate]. cbn.
  f_equal. apply IH. intros i o Hi. exact (Hall (S i) o Hi).
Qed.

(** When exactly one call raised, the calls that returned are all the
    others, in order. *)
Lemma successes_one_failure {A} (outcomes : list (outcome A)) (j : nat)
    (e : exn) :
  outcomes !! j = Some (Raise e) ->
  (forall i o, i <> j -> outcomes !! i = Some o -> is_return o = true) ->
  List.map Return (successes outcomes) = delete j outcomes.
Proof.
  revert j. induction outcomes as [|o outcomes IH]; intros j Hj Hothers.
  - discriminate.
  - destruct j as [|j]; simpl in Hj.
    + injection Hj as ->. cbn.
      apply successes_all_returned.
      intros i o Hi. apply (Hothers (S i) o); [discriminate | exact Hi].
    + pose proof (Hothers 0%nat o ltac:(discriminate) eq_refl) as Ho.
      destruct o as [a|e']; [|discriminate]. cbn. f_equal.
      apply (IH j Hj). intros i o Hne Hi.
      apply (Hothers (S i) o); [congruence | exact Hi].
Qed.

(** C4: when exactly the task at position [j] makes [route_task] raise,
    [batch_run] returns one record less than there are tasks: the records
    of all the other tasks, in input order, with nothing in the place of
    task [j]; every task has been routed. *)
Theorem batch_run_omits_the_failed_task self (tasks : list pystr) s (j : nat)
    (e : exn) :
  let outcomes := fst (MultiAgentRouter.route_each self tasks s) in
  outcomes !! j = Some (Raise e) ->
  (forall i o, i <> j -> outcomes !! i = Some o -> is_return o = true) ->
  exists results : list TaskRecord,
    MultiAgentRouter.batch_run self tasks s
    = (Return results, snd (MultiAgentRouter.route_each self tasks s))
    /\ length results = (length tasks - 1)%nat
    /\ List.map Return results = delete j outcomes.
Proof.
  intros outcomes Hj Hothers.
  exists (successes outcomes).
  pose proof (successes_one_failure outcomes j e Hj Hothers) as Hres.
  split; [apply batch_run_route_each|]. split; [|exact Hres].
  rewrite <- (length_map Return), Hres, length_delete by eauto.
  unfold outcomes. now rewrite route_each_length.
Qed.

(** ** Concurrent batches *)








End RouterProperties.

(** A check on all positions but one, as a computation. *)
Lemma forallb_delete_lookup {A} (f : A -> bool) (l : list A) (j : nat) :
  forallb f (delete j l) = true ->
  forall i o, i <> j -> l !! i = Some o -> f o = true.
Proof.
  revert j. induction l as [|x l IH]; intros j Hall i o Hne Hi;
    [discriminate|].
  destruct j as [|j], i as [|i]; simpl in *; try congruence.
  - apply (proj1 (forallb_forall f l) Hall), list_elem_of_In.
    eapply list_elem_of_lookup_2, Hi.
  - apply andb_prop in Hall as [Hx _]. congruence.
  - apply andb_prop in Hall as [_ Hall].
    apply (IH j Hall i o); [congruence | exact Hi].
Qed.

(** * Further properties of the code *)

(** ** Fences without line breaks *)

Lemma startswith_app (prefix rest : pystr) :
  PyStr.startswith (prefix ++ rest) prefix = true.
Proof.
  induction prefix as [|c prefix IH]; simpl; [now destruct rest|].
  now rewrite N.eqb_refl, IH.
Qed.

Lemma strip_by_snoc_dropped (f : N -> bool) (s : pystr) (c : N) :
  f c = true -> PyStr.strip_by f (s ++ [c]) = PyStr.strip_by f s.
Proof.
  intros Hc. unfold PyStr.strip_by.
  induction s as [|a s IH]; simpl.
  - now rewrite Hc.
  - destruct (f a) eqn:Ha; [exact IH|].
    change (a :: s ++ [c]) with ((a :: s) ++ [c]).
    now apply rstrip_by_snoc_dropped.
Qed.

(** Stripped characters around a string do not change what is left after
    stripping. *)
Lemma strip_by_affixes (f : N -> bool) (before s after : pystr) :
  forallb f before = true -> forallb f after = true ->
  PyStr.strip_by f (before ++ s ++ after) = PyStr.strip_by f s.
Proof.
  intros Hbefore Hafter.
  assert (Hleft : forall rest,
            PyStr.strip_by f (before ++ rest) = PyStr.strip_by f rest).
  { intros rest. unfold PyStr.strip_by. f_equal.
    induction before as [|c before IH]; simpl; [reflexivity|].
    simpl in Hbefore. apply andb_prop in Hbefore as [Hc Hbefore].
    rewrite Hc. now apply IH. }
  rewrite Hleft. clear Hleft Hbefore.
  induction after as [|c after IH] using rev_ind.
  - now rewrite app_nil_r.
  - rewrite forallb_app in Hafter. simpl in Hafter.
    apply andb_prop in Hafter as [Hafter Hc].
    apply andb_prop in Hc as [Hc _].
    rewrite app_assoc, strip_by_snoc_dropped by exact Hc.
    now apply IH.
Qed.

(** What a strip leaves has nothing left to strip at either end, also for
    a smaller set of characters. *)
Lemma strip_by_subset (f g : N -> bool) (s : pystr) :
  (forall c, g c = true -> f c = true) ->
  PyStr.strip_by g (PyStr.strip_by f s) = PyStr.strip_by f s.
Proof.
  intros Hsub.
  assert (Hclean : forall x, PyStr.left_clean f x -> PyStr.left_clean g x).
  { intros [|c x]; simpl; [auto|]. intros Hc.
    destruct (g c) eqn:Hg; [|reflexivity]. now rewrite (Hsub c Hg) in Hc. }
  unfold PyStr.strip_by at 1.
  rewrite (lstrip_by_of_left_clean g).
  - unfold PyStr.rstrip_by at 1.
    rewrite (lstrip_by_of_left_clean g); [apply rev_involutive|].
    apply Hclean. unfold PyStr.strip_by, PyStr.rstrip_by.
    rewrite rev_involutive. apply lstrip_by_left_clean.
  - apply Hclean, rstrip_by_left_clean, lstrip_by_left_clean.
Qed.

Section MoreCallerProperties.
Context `{Externals} {R : Type}.
Implicit Types (self : LiteLLMFunctionCaller.t R) (task content : pystr).

Lemma second_strip_redundant_aux content :
  PyStr.strip_chars (py "```") (PyStr.strip_chars (py "```json") content)
  = PyStr.strip_chars (py "```json") content.
Proof.
  unfold PyStr.strip_chars. apply strip_by_subset.
  intros c Hc. unfold PyStr.in_chars in *.
  apply existsb_exists in Hc as (x & Hx & Heq).
  apply existsb_exists. exists x. split; [|exact Heq].
  simpl in Hx. simpl. tauto.
Qed.

(** X1: in line 45 the second strip, of the backticks alone, never removes
    anything: the first strip has already taken every backtick from both
    ends. *)
Theorem second_strip_is_redundant content :
  PyStr.strip_chars (py "```") (PyStr.strip_chars (py "```json") content)
  = PyStr.strip_chars (py "```json") content.
Proof. apply second_strip_redundant_aux. Qed.

(** X2: when the fences touch the text, without line breaks in between,
    [run] does not parse the text but what is left of it after removing,
    from both of its ends, every backtick and every letter of the word
    json, and then the white space. *)
Theorem strip_fence_without_line_breaks (text : pystr) :
  LiteLLMFunctionCaller.strip_fence (py "```json" ++ text ++ py "```")
  = PyStr.strip (PyStr.strip_chars (py "```json") text).
Proof.
  unfold LiteLLMFunctionCaller.strip_fence.
  rewrite startswith_app, second_strip_redundant_aux.
  unfold PyStr.strip_chars.
  now rewrite strip_by_affixes by reflexivity.
Qed.

(** X3: [run] never raises.  Whatever the endpoint, the parser and the
    validator do, it returns, in the world that the completion call left;
    and it returns [None] when the completion call raised or when its
    message has no content. *)
Theorem run_never_raises self task (w : World) :
  exists r : option (run_result R),
    LiteLLMFunctionCaller.run self task w
    = (Return r,
       snd (completion_content (LiteLLMFunctionCaller.request self task) w))
    /\ ((forall content,
           fst (completion_content
                  (LiteLLMFunctionCaller.request self task) w)
           <> Return (Some content)) -> r = None).
Proof.
  rewrite run_cases.
  destruct (completion_content _ w) as [[[content|]|e] w']; simpl.
  - eexists. split; [reflexivity|]. intros Hc. now destruct (Hc content).
  - exists None. auto.
  - exists None. auto.
Qed.

(** X4: [batch_run] never raises and returns one entry per task, also when
    every call fails. *)
Theorem caller_batch_run_never_raises self (tasks : list pystr) (w : World) :
  exists (results : list (option (run_result R))) (w' : World),
    LiteLLMFunctionCaller.batch_run self tasks w = (Return results, w')
    /\ length results = length tasks.
Proof. apply caller_batch_run_length. Qed.

(** X28: a model caller that was constructed holds a key that is not
    empty; the constructor raises exactly when neither the argument nor
    the environment gives one, and an empty key counts as none. *)
Theorem caller_init_holds_a_key (model_name system_prompt : pystr)
    (base_model : option (json -> outcome R)) (api_key : option pystr)
    (temperature : Q) (max_tokens : Z) :
  (forall self,
     LiteLLMFunctionCaller.__init__ model_name system_prompt base_model
       api_key temperature max_tokens = Return self ->
     PyStr.truthy (LiteLLMFunctionCaller.api_key self) = true)
  /\ ((exists e,
         LiteLLMFunctionCaller.__init__ model_name system_prompt base_model
           api_key temperature max_tokens = Raise e)
      <-> PyStr.truthy api_key = false
          /\ PyStr.truthy (getenv (py "LITELLM_API_KEY")) = false)
  /\ LiteLLMFunctionCaller.__init__ model_name system_prompt base_model
       (Some []) temperature max_tokens
     = LiteLLMFunctionCaller.__init__ model_name system_prompt base_model
         None temperature max_tokens.
Proof.
  unfold LiteLLMFunctionCaller.__init__, PyStr.or_else.
  split; [|split; [|reflexivity]].
  - intros self.
    destruct (PyStr.truthy api_key) eqn:Hkey; simpl.
    + rewrite Hkey. simpl. now intros [= <-].
    + destruct (PyStr.truthy (getenv _)) eqn:Henv; simpl; [|discriminate].
      now intros [= <-].
  - destruct (PyStr.truthy api_key) eqn:Hkey; simpl.
    + rewrite Hkey. simpl. split; [intros [e He]|intros [He _]];
        discriminate.
    + destruct (PyStr.truthy (getenv _)) eqn:Henv; simpl.
      * split; [intros [e He]|intros [_ He]]; discriminate.
      * split; [auto|]. intros _. eexists. reflexivity.
Qed.

End MoreCallerProperties.

(** ** The registry and the constructor of the router *)

Lemma get_set {V} (key k : pystr) (v : V) (d : PyDict.t V) :
  PyDict.get key (PyDict.set k v d)
  = if decide (key = k) then Some v else PyDict.get key d.
Proof.
  induction d as [|[k' v'] d IH]; simpl.
  - reflexivity.
  - destruct (decide (k = k')) as [->|Hne]; simpl.
    + destruct (decide (key = k')); reflexivity.
    + rewrite IH. destruct (decide (key = k')) as [->|Hne'];
        destruct (decide (k' = k)); congruence.
Qed.

Lemma set_keys_NoDup {V} (k : pystr) (v : V) (d : PyDict.t V) :
  NoDup (PyDict.keys d) -> NoDup (PyDict.keys (PyDict.set k v d)).
Proof.
  unfold PyDict.keys. induction d as [|[k' v'] d IH]; simpl; intros Hd.
  - repeat constructor. apply not_elem_of_nil.
  - apply NoDup_cons in Hd as [Hk' Hd].
    destruct (decide (k = k')) as [->|Hne]; simpl.
    + now apply NoDup_cons.
    + apply NoDup_cons. split; [|now apply IH].
      rewrite list_elem_of_In in *. intros Hin.
      apply (set_keys k' k v d) in Hin as [Heq|Hin]; [congruence|tauto].
Qed.

Lemma find_over_app {A} (f : A -> bool) (l1 l2 : list A) :
  List.find f (l1 ++ l2)
  = match List.find f l1 with
    | Some x => Some x
    | None => List.find f l2
    end.
Proof.
  induction l1 as [|x l1 IH]; simpl; [reflexivity|].
  now destruct (f x).
Qed.

Section Registry.
Context {World : Type}.
Implicit Types (agents : list (Agent.t World)) (key : pystr).

(** The registry, built one assignment at a time. *)
Lemma registry_fold agents (d : PyDict.t (Agent.t World)) key :
  PyDict.get key
    (fold_left (fun d agent => PyDict.set (Agent.name agent) agent d)
               agents d)
  = match List.find (fun agent => bool_decide (Agent.name agent = key))
                    (rev agents) with
    | Some agent => Some agent
    | None => PyDict.get key d
    end.
Proof.
  revert d. induction agents as [|a agents IH]; intros d; simpl;
    [reflexivity|].
  rewrite IH, find_over_app.
  destruct (List.find _ (rev agents)); [reflexivity|].
  simpl. rewrite get_set.
  destruct (decide (key = Agent.name a)) as [->|Hne].
  - now rewrite bool_decide_eq_true_2.
  - now rewrite bool_decide_eq_false_2 by congruence.
Qed.

Lemma registry_fold_NoDup agents (d : PyDict.t (Agent.t World)) :
  NoDup (PyDict.keys d) ->
  NoDup (PyDict.keys
           (fold_left (fun d agent => PyDict.set (Agent.name agent) agent d)
                      agents d)).
Proof.
  revert d. induction agents as [|a agents IH]; intros d Hd; simpl;
    [exact Hd|].
  apply IH, set_keys_NoDup, Hd.
Qed.

End Registry.

Section MoreRouterProperties.
Context `{Externals}.
Implicit Types (self : MultiAgentRouter.t World) (task : pystr)
  (s : MultiAgentRouter.State World).

(** X5: when several agents are registered under one name, the last one
    wins: looking a name up in the registry gives the last agent of the
    constructor's list that has this name. *)
Theorem registry_last_registration_wins (agents : list (Agent.t World))
    (key : pystr) :
  PyDict.get key (MultiAgentRouter.agents_by_name agents)
  = List.find (fun agent => bool_decide (Agent.name agent = key))
              (rev agents).
Proof.
  unfold MultiAgentRouter.agents_by_name. rewrite registry_fold.
  now destruct (List.find _ (rev agents)).
Qed.

(** X6: the registry that the constructor builds has no key twice, and
    every key is the name of the agent stored under it. *)
Theorem registry_keys_are_agent_names (agents : list (Agent.t World)) :
  NoDup (PyDict.keys (MultiAgentRouter.agents_by_name agents))
  /\ forall (key : pystr) (agent : Agent.t World),
       PyDict.get key (MultiAgentRouter.agents_by_name agents) = Some agent
       -> Agent.name agent = key /\ In agent agents.
Proof.
  split.
  - apply registry_fold_NoDup. constructor.
  - intros key agent Hget. unfold MultiAgentRouter.agents_by_name in Hget.
    rewrite registry_fold in Hget.
    destruct (List.find _ (rev agents)) as [a|] eqn:Hfind; [|discriminate].
    injection Hget as <-. apply find_some in Hfind as [Hin Hname].
    apply bool_decide_eq_true_1 in Hname.
    split; [exact Hname | now apply in_rev].
Qed.

(** X7: the constructor of the router raises exactly when the key it is
    given is missing or empty, whatever the environment holds: the
    fall-back of the model caller on [LITELLM_API_KEY] is never reached
    through the router.  Otherwise it builds a router whose model caller
    validates against [AgentResponse], with the boss prompt as system
    prompt and the default budget of 5000 tokens. *)
Theorem router_init_needs_its_own_key (name description : pystr)
    (agents : list (Agent.t World)) (model : pystr) (api_key : option pystr)
    (temperature : Q) (output_type : pystr) (execute_task : bool) :
  MultiAgentRouter.__init__ name description agents model api_key
    temperature output_type execute_task
  = if PyStr.truthy api_key then
      let registry := MultiAgentRouter.agents_by_name agents in
      let prompt := MultiAgentRouter._create_boss_system_prompt registry in
      Return
        {| MultiAgentRouter.name := name;
           MultiAgentRouter.description := description;
           MultiAgentRouter.output_type := output_type;
           MultiAgentRouter.execute_task := execute_task;
           MultiAgentRouter.model := model;
           MultiAgentRouter.temperature := temperature;
           MultiAgentRouter.agents := registry;
           MultiAgentRouter.api_key := api_key;
           MultiAgentRouter.boss_system_prompt := prompt;
           MultiAgentRouter.function_caller :=
             {| LiteLLMFunctionCaller.model_name := model;
                LiteLLMFunctionCaller.system_prompt := prompt;
                LiteLLMFunctionCaller.api_key := api_key;
                LiteLLMFunctionCaller.temperature := temperature;
                LiteLLMFunctionCaller.base_model :=
                  Some AgentResponse_model_validate;
                LiteLLMFunctionCaller.max_tokens := 5000 |} |}
    else Raise (ValueError (py "OpenAI API key must be provided")).
Proof.
  unfold MultiAgentRouter.__init__, LiteLLMFunctionCaller.__init__,
    PyStr.or_else.
  destruct (PyStr.truthy api_key) eqn:Hkey; simpl; [|reflexivity].
  now rewrite Hkey.
Qed.

End MoreRouterProperties.

(** ** More on one routed task *)
Section RoutedTask.
Context `{Externals}.
Implicit Types (self : MultiAgentRouter.t World) (task : pystr)
  (s : MultiAgentRouter.State World).

(** A returned record has an execution time exactly when execution is
    enabled. *)
Lemma route_task_timed_when_executed self task s :
  outcome_map (fun record =>
                 from_option (fun _ => true) false
                   (execution_time (execution record)))
    (fst (MultiAgentRouter.route_task self task s))
  = outcome_map (fun _ => MultiAgentRouter.execute_task self)
      (fst (MultiAgentRouter.route_task self task s)).
Proof.
  unfold MultiAgentRouter.route_task, try_except, bind,
    MultiAgentRouter.conversation_add, MultiAgentRouter.now,
    MultiAgentRouter.new_uuid, MultiAgentRouter.invoke,
    MultiAgentRouter.getitem, MultiAgentRouter.in_world,
    MultiAgentRouter.attributes, PyDict.mem, raise, ret.
  simpl.
  destruct (datetime_now (MultiAgentRouter.world s)) as [t0 w1]. simpl.
  destruct (run_returns (MultiAgentRouter.function_caller self) task w1)
    as (r & w2 & Hrun).
  rewrite Hrun. simpl.
  destruct r as [[d|j]|]; simpl; try reflexivity.
  destruct (PyDict.get (selected_agent d) (MultiAgentRouter.agents self))
    as [a|]; simpl; [|reflexivity].
  destruct (datetime_now w2) as [t1 w3]. simpl.
  destruct (MultiAgentRouter.execute_task self) eqn:Hexec; simpl.
  - destruct (Agent.run a task w3) as [[agent_response|e] w4]; simpl;
      [|reflexivity].
    destruct (datetime_now w4) as [t2 w5]. simpl.
    destruct (datetime_now w5) as [t3 w6]. simpl.
    destruct (uuid4 w6) as [u w7]. simpl.
    destruct (datetime_now w7) as [t4 w8]. simpl.
    reflexivity.
  - destruct (datetime_now w3) as [t3 w6]. simpl.
    destruct (uuid4 w6) as [u w7]. simpl.
    destruct (datetime_now w7) as [t4 w8]. simpl.
    reflexivity.
Qed.

(** The log after the first steps of [route_task]. *)
Lemma after_decision_conversation self task s :
  MultiAgentRouter.conversation (MultiAgentRouter.after_decision self task s)
  = MultiAgentRouter.conversation s
    ++ [ {| role := py "user"; content := task |};
         {| role := py "assistant";
            content :=
              any_to_str (MultiAgentRouter.boss_response_at self task s) |} ].
Proof. reflexivity. Qed.

(** X8: with execution disabled, [route_task] invokes no handler and logs
    exactly the user turn and the assistant turn; a record that it returns
    says that nothing was executed and carries neither a response nor an
    execution time. *)
Theorem route_task_without_execution self task s :
  MultiAgentRouter.execute_task self = false ->
  MultiAgentRouter.calls (snd (MultiAgentRouter.route_task self task s))
  = MultiAgentRouter.calls s
  /\ MultiAgentRouter.conversation
       (snd (MultiAgentRouter.route_task self task s))
     = MultiAgentRouter.conversation s
       ++ [ {| role := py "user"; content := task |};
            {| role := py "assistant";
               content :=
                 any_to_str (MultiAgentRouter.boss_response_at self task s) |} ]
  /\ forall record : TaskRecord,
       fst (MultiAgentRouter.route_task self task s) = Return record ->
       was_executed (execution record) = false
       /\ response (execution record) = None
       /\ execution_time (execution record) = None.
Proof.
  intros Hexec.
  pose proof (route_task_effects self task s) as Heff.
  pose proof (route_task_outcome self task s) as Hout.
  pose proof (route_task_timed_when_executed self task s) as Htime.
  cbv zeta in Heff.
  assert (Hstate :
    MultiAgentRouter.calls (snd (MultiAgentRouter.route_task self task s))
    = MultiAgentRouter.calls s
    /\ MultiAgentRouter.conversation
         (snd (MultiAgentRouter.route_task self task s))
       = MultiAgentRouter.conversation
           (MultiAgentRouter.after_decision self task s)).
  { destruct (MultiAgentRouter.boss_response_at self task s) as [[d|j]|];
      try (rewrite Heff; split; reflexivity).
    destruct (PyDict.get (selected_agent d) (MultiAgentRouter.agents self));
      [|rewrite Heff; split; reflexivity].
    rewrite Hexec in Heff. exact Heff. }
  destruct Hstate as [Hcalls Hconv].
  split; [exact Hcalls|].
  split; [now rewrite Hconv, after_decision_conversation|].
  intros record Hrecord. rewrite Hrecord in Hout, Htime. simpl in Hout, Htime.
  destruct (MultiAgentRouter.boss_response_at self task s) as [[d|j]|];
    try discriminate.
  destruct (PyDict.get (selected_agent d) (MultiAgentRouter.agents self))
    as [a|]; try discriminate.
  rewrite Hexec in Hout, Htime.
  assert (Hcontent : record_content record
            = MultiAgentRouter.routed_content self task d a None)
    by congruence.
  assert (Huntimed : from_option (fun _ => true) false
                       (execution_time (execution record)) = false)
    by congruence.
  split; [|split].
  - apply (f_equal content_was_executed) in Hcontent. simpl in Hcontent.
    congruence.
  - now apply (f_equal content_response) in Hcontent.
  - now destruct (execution_time (execution record)).
Qed.

(** Without a decision [route_task] raises once both turns are logged. *)
Lemma route_task_no_usable_decision self task s :
  MultiAgentRouter.boss_response_at self task s = None ->
  MultiAgentRouter.route_task self task s
  = (Raise (AttributeError
              (py "'NoneType' object has no attribute 'selected_agent'")),
     {| MultiAgentRouter.world :=
          MultiAgentRouter.world
            (MultiAgentRouter.after_decision self task s);
        MultiAgentRouter.conversation :=
          MultiAgentRouter.conversation s
          ++ [ {| role := py "user"; content := task |};
               {| role := py "assistant"; content := any_to_str None |} ];
        MultiAgentRouter.calls := MultiAgentRouter.calls s |}).
Proof.
  intros Hnone.
  pose proof (route_task_effects self task s) as Heff.
  pose proof (route_task_outcome self task s) as Hout.
  cbv zeta in Heff. rewrite Hnone in Heff, Hout.
  apply outcome_map_raise in Hout.
  destruct (MultiAgentRouter.route_task self task s) as [o s'].
  simpl in Heff, Hout. subst o s'.
  unfold MultiAgentRouter.after_decision. simpl. now rewrite Hnone.
Qed.

(** X9: when the decision step yields nothing ([run] returned [None], as
    it does on every failure of the model call), [route_task] raises the
    [AttributeError] of reading [selected_agent] from [None]; by then both
    turns are in the log, and no handler has been invoked. *)
Theorem route_task_raises_without_decision self task s :
  MultiAgentRouter.boss_response_at self task s = None ->
  MultiAgentRouter.route_task self task s
  = (Raise (AttributeError
              (py "'NoneType' object has no attribute 'selected_agent'")),
     {| MultiAgentRouter.world :=
          MultiAgentRouter.world
            (MultiAgentRouter.after_decision self task s);
        MultiAgentRouter.conversation :=
          MultiAgentRouter.conversation s
          ++ [ {| role := py "user"; content := task |};
               {| role := py "assistant"; content := any_to_str None |} ];
        MultiAgentRouter.calls := MultiAgentRouter.calls s |}).
Proof. apply route_task_no_usable_decision. Qed.

(** X10: an exception of the selected handler leaves [route_task] as it
    is; the handler has been invoked on the task, and the log holds the two
    turns that precede the invocation, without a turn for the handler. *)
Theorem route_task_propagates_handler_exception self task s
    (d : AgentResponse) (a : Agent.t World) (e : exn) :
  MultiAgentRouter.execute_task self = true ->
  MultiAgentRouter.boss_response_at self task s = Some (Validated d) ->
  PyDict.get (selected_agent d) (MultiAgentRouter.agents self) = Some a ->
  fst (Agent.run a task (MultiAgentRouter.execution_world self task s))
  = Raise e ->
  exists s' : MultiAgentRouter.State World,
    MultiAgentRouter.route_task self task s = (Raise e, s')
    /\ MultiAgentRouter.conversation s'
       = MultiAgentRouter.conversation s
         ++ [ {| role := py "user"; content := task |};
              {| role := py "assistant";
                 content := any_to_str (Some (Validated d)) |} ]
    /\ MultiAgentRouter.calls s'
       = MultiAgentRouter.calls s
         ++ [ {| callee := Agent.name a; argument := task |} ].
Proof.
  intros Hexec Hd Hget Hraise.
  pose proof (route_task_effects self task s) as Heff.
  pose proof (route_task_outcome self task s) as Hout.
  cbv zeta in Heff. rewrite Hd, Hget, Hexec, Hraise in Heff, Hout.
  apply outcome_map_raise in Hout.
  destruct (MultiAgentRouter.route_task self task s) as [o s'].
  simpl in Heff, Hout. subst o. destruct Heff as [Hcalls Hconv].
  exists s'. split; [reflexivity|]. split; [|exact Hcalls].
  rewrite Hconv, app_nil_r. now rewrite Hd.
Qed.

(** X11: a call of [route_task] that returns with execution enabled has
    added exactly three turns to the log: the user turn, the assistant
    turn, and a turn under the name of the handler that holds the response
    stored in the record. *)
Theorem route_task_logs_three_turns self task s (record : TaskRecord)
    (s' : MultiAgentRouter.State World) :
  MultiAgentRouter.execute_task self = true ->
  MultiAgentRouter.route_task self task s = (Return record, s') ->
  exists agent_response : pystr,
    response (execution record) = Some agent_response
    /\ MultiAgentRouter.conversation s'
       = MultiAgentRouter.conversation s
         ++ [ {| role := py "user"; content := task |};
              {| role := py "assistant";
                 content :=
                   any_to_str
                     (MultiAgentRouter.boss_response_at self task s) |};
              {| role := agent_name (execution record);
                 content := agent_response |} ].
Proof.
  intros Hexec Hroute.
  pose proof (route_task_effects self task s) as Heff.
  pose proof (route_task_outcome self task s) as Hout.
  cbv zeta in Heff. rewrite Hroute in Heff, Hout. simpl in Hout.
  cbn [snd] in Heff. rewrite after_decision_conversation in Heff.
  destruct (MultiAgentRouter.boss_response_at self task s) as [[d|j]|];
    try discriminate.
  destruct (PyDict.get (selected_agent d) (MultiAgentRouter.agents self))
    as [a|]; try discriminate.
  rewrite Hexec in Heff, Hout.
  destruct (fst (Agent.run a task _)) as [agent_response|e];
    try discriminate.
  assert (Hcontent : record_content record
            = MultiAgentRouter.routed_content self task d a
                (Some agent_response)) by congruence.
  exists agent_response. split.
  - now apply (f_equal content_response) in Hcontent.
  - apply (f_equal content_agent_name) in Hcontent. simpl in Hcontent.
    destruct Heff as [_ Hconv]. rewrite Hconv, Hcontent, <- app_assoc.
    reflexivity.
Qed.

(** X12: for a router whose registry was built by the constructor, the
    handler named in [execution.agent_name] of a returned record is the one
    named in [boss_decision.selected_agent]. *)
Theorem route_task_agent_name_is_selected_name
    (agents : list (Agent.t World)) self task s (record : TaskRecord)
    (s' : MultiAgentRouter.State World) :
  MultiAgentRouter.agents self = MultiAgentRouter.agents_by_name agents ->
  MultiAgentRouter.route_task self task s = (Return record, s') ->
  agent_name (execution record)
  = decision_selected_agent (boss_decision record).
Proof.
  intros Hregistry Hroute.
  destruct (route_task_return_inv _ _ _ _ _ Hroute)
    as (d & a & r & _ & Hget & Hcontent).
  rewrite Hregistry in Hget. unfold MultiAgentRouter.agents_by_name in Hget.
  rewrite registry_fold in Hget.
  destruct (List.find _ (rev agents)) as [a'|] eqn:Hfind; [|discriminate].
  injection Hget as ->. apply find_some in Hfind as [_ Hname].
  apply bool_decide_eq_true_1 in Hname.
  pose proof (f_equal content_agent_name Hcontent) as Hagent.
  pose proof (f_equal content_decision Hcontent) as Hdecision.
  simpl in Hagent, Hdecision. rewrite Hagent, Hdecision. simpl.
  exact Hname.
Qed.

(** One call of [route_task] only appends to the log: two or three
    turns. *)
Lemma route_task_log_grows self task s :
  exists added : list Turn,
    MultiAgentRouter.conversation
      (snd (MultiAgentRouter.route_task self task s))
    = MultiAgentRouter.conversation s ++ added
    /\ (2 <= length added <= 3)%nat.
Proof.
  pose proof (route_task_effects self task s) as Heff. cbv zeta in Heff.
  pose proof (after_decision_conversation self task s) as Htwo.
  assert (Hcase :
    MultiAgentRouter.conversation
      (snd (MultiAgentRouter.route_task self task s))
    = MultiAgentRouter.conversation
        (MultiAgentRouter.after_decision self task s)
    \/ exists turn,
         MultiAgentRouter.conversation
           (snd (MultiAgentRouter.route_task self task s))
         = MultiAgentRouter.conversation
             (MultiAgentRouter.after_decision self task s) ++ [turn]).
  { destruct (MultiAgentRouter.boss_response_at self task s) as [[d|j]|];
      try (left; now rewrite Heff).
    destruct (PyDict.get (selected_agent d) (MultiAgentRouter.agents self))
      as [a|]; [|left; now rewrite Heff].
    destruct (MultiAgentRouter.execute_task self);
      destruct Heff as [_ Hconv]; [|left; exact Hconv].
    destruct (fst (Agent.run a task _)) as [agent_response|e].
    - right. eexists. exact Hconv.
    - left. now rewrite Hconv, app_nil_r. }
  destruct Hcase as [Hconv|[turn Hconv]]; rewrite Hconv, Htwo.
  - eexists. split; [reflexivity|]. simpl. lia.
  - rewrite <- app_assoc. eexists. split; [reflexivity|]. simpl. lia.
Qed.

Lemma route_each_log_grows self (tasks : list pystr) s :
  exists added : list Turn,
    MultiAgentRouter.conversation
      (snd (MultiAgentRouter.route_each self tasks s))
    = MultiAgentRouter.conversation s ++ added
    /\ (2 * length tasks <= length added <= 3 * length tasks)%nat.
Proof.
  revert s. induction tasks as [|task tasks IH]; intros s; simpl.
  - exists []. rewrite app_nil_r. split; [reflexivity|]. simpl. lia.
  - destruct (route_task_log_grows self task s) as (first & Hfirst & Hlen).
    destruct (MultiAgentRouter.route_task self task s) as [o s1].
    destruct (IH s1) as (rest & Hrest & Hlen').
    destruct (MultiAgentRouter.route_each self tasks s1) as [os s2].
    simpl in *. exists (first ++ rest).
    rewrite Hrest, Hfirst, <- app_assoc. split; [reflexivity|].
    rewrite length_app. lia.
Qed.

(** X13: [batch_run] never raises: it returns the records of the calls
    that returned, in input order, so that the result has as many entries
    as there are calls that returned, never more than there are tasks. *)
Theorem batch_run_returns_the_successes self (tasks : list pystr) s :
  MultiAgentRouter.batch_run self tasks s
  = (Return (successes (fst (MultiAgentRouter.route_each self tasks s))),
     snd (MultiAgentRouter.route_each self tasks s))
  /\ length (successes (fst (MultiAgentRouter.route_each self tasks s)))
     = length (List.filter is_return
                 (fst (MultiAgentRouter.route_each self tasks s)))
  /\ (length (successes (fst (MultiAgentRouter.route_each self tasks s)))
      <= length tasks)%nat.
Proof.
  split; [apply batch_run_route_each|].
  assert (Hcount : forall outcomes : list (outcome TaskRecord),
            length (successes outcomes)
            = length (List.filter is_return outcomes)).
  { induction outcomes as [|[record|e] outcomes IH]; cbn; auto. }
  split; [apply Hcount|].
  rewrite Hcount, <- (route_each_length self tasks s).
  apply filter_length_le.
Qed.

(** X14: a batch only appends to the conversation log: the log before the
    batch is a prefix of the log after it, and every task, routed or
    failed, has added two or three turns. *)
Theorem batch_run_log_append_only self (tasks : list pystr) s :
  exists added : list Turn,
    MultiAgentRouter.conversation
      (snd (MultiAgentRouter.batch_run self tasks s))
    = MultiAgentRouter.conversation s ++ added
    /\ (2 * length tasks <= length added <= 3 * length tasks)%nat.
Proof.
  rewrite batch_run_route_each. simpl. apply route_each_log_grows.
Qed.

(** X15: on the empty list [concurrent_batch_run] returns the empty list
    and changes nothing, whatever the pool does; the pool of the router
    is built without [max_workers]. *)
Theorem concurrent_batch_run_empty (order : list nat) self s :
  MultiAgentRouter.concurrent_batch_run order self [] s = (Return [], s).
Proof.
  unfold MultiAgentRouter.concurrent_batch_run, bind.
  assert (Hnone : MultiAgentRouter.as_completed self [] order s
                  = (Return [], s)).
  { induction order as [|i order IH]; simpl; [reflexivity | exact IH]. }
  now rewrite Hnone.
Qed.

(** X26: for a router that its constructor built, a reply of the model
    that decodes but is no object with both [selected_agent] and
    [reasoning] ends [route_task] in the [AttributeError] of reading
    [selected_agent] from [None]: the validation error is swallowed by the
    model caller, and no handler is invoked. *)
Theorem route_task_raises_on_rejected_reply (name description : pystr)
    (agents : list (Agent.t World)) (model : pystr) (api_key : option pystr)
    (temperature : Q) (output_type : pystr) (execute_task : bool)
    self task s (content : pystr) (obj : json) :
  MultiAgentRouter.__init__ name description agents model api_key
    temperature output_type execute_task = Return self ->
  fst (completion_content
         (LiteLLMFunctionCaller.request
            (MultiAgentRouter.function_caller self) task)
         (snd (datetime_now (MultiAgentRouter.world s))))
  = Return (Some content) ->
  json_loads (LiteLLMFunctionCaller.strip_fence content) = Return obj ->
  (forall d, obj = JDict d ->
     PyDict.get (py "selected_agent") d = None
     \/ PyDict.get (py "reasoning") d = None) ->
  fst (MultiAgentRouter.route_task self task s)
  = Raise (AttributeError
             (py "'NoneType' object has no attribute 'selected_agent'"))
  /\ MultiAgentRouter.calls (snd (MultiAgentRouter.route_task self task s))
     = MultiAgentRouter.calls s.
Proof.
  intros Hinit Hreply Hloads Hbad.
  assert (Hbase : LiteLLMFunctionCaller.base_model
                    (MultiAgentRouter.function_caller self)
                  = Some AgentResponse_model_validate).
  { unfold MultiAgentRouter.__init__, LiteLLMFunctionCaller.__init__
      in Hinit.
    destruct (negb (PyStr.truthy api_key)); [discriminate|].
    destruct (negb (PyStr.truthy _)); [discriminate|].
    injection Hinit as <-. reflexivity. }
  assert (Hrejected : exists e, AgentResponse_model_validate obj = Raise e).
  { destruct obj as [| | | | |l|d]; try (eexists; reflexivity).
    unfold AgentResponse_model_validate.
    destruct (Hbad d eq_refl) as [Hmissing|Hmissing]; rewrite Hmissing.
    - eexists. reflexivity.
    - destruct (PyDict.get (py "selected_agent") d) as [[]|];
        eexists; reflexivity. }
  destruct Hrejected as [e Hrejected].
  assert (Hnone : MultiAgentRouter.boss_response_at self task s = None).
  { unfold MultiAgentRouter.boss_response_at. rewrite run_cases.
    destruct (completion_content _ _) as [o w']. simpl in Hreply. subst o.
    simpl. unfold LiteLLMFunctionCaller.decode.
    now rewrite Hloads, Hbase, Hrejected. }
  now rewrite (route_task_no_usable_decision self task s Hnone).
Qed.

End RoutedTask.

(** ** The text helpers *)

Lemma startswith_nil (s : pystr) : PyStr.startswith s [] = true.
Proof. now destruct s. Qed.

(** [parse_text], one character at a time. *)
Lemma parse_text_cons (c : N) (s : pystr) :
  Parse.parse_text (c :: s)
  = if (c =? 92)%N && match s with
                      | c' :: _ => (c' =? 110)%N
                      | [] => false
                      end
    then 10%N :: Parse.parse_text (tail s)
    else c :: Parse.parse_text s.
Proof.
  unfold Parse.parse_text, Parse.replace, Parse.escaped_newline.
  cbn [Parse.replace_from PyStr.startswith].
  destruct s as [|c' s]; cbn [PyStr.startswith].
  - now rewrite andb_false_r.
  - rewrite startswith_nil, andb_true_r.
    now destruct ((c =? 92)%N && (c' =? 110)%N).
Qed.

(** The first character of the result is a line break or the first
    character of the text. *)
Lemma parse_text_head (s : pystr) (c : N) :
  head (Parse.parse_text s) = Some c -> c = 10%N \/ head s = Some c.
Proof.
  destruct s as [|a s]; [discriminate|].
  rewrite parse_text_cons.
  destruct (_ && _); simpl; intros [= <-]; auto.
Qed.

Lemma parse_text_no_pair_bounded (n : nat) :
  forall text : pystr, (length text <= n)%nat ->
    ~ Parse.contains (Parse.parse_text text) Parse.escaped_newline.
Proof.
  induction n as [|n IH]; intros text Hlen (before & after & Heq).
  - destruct text; [|simpl in Hlen; lia].
    destruct before; discriminate.
  - destruct text as [|c text]; [destruct before; discriminate|].
    rewrite parse_text_cons in Heq. simpl in Hlen.
    destruct ((c =? 92)%N && _) eqn:Hpair.
    + destruct before as [|b before]; [discriminate|].
      injection Heq as _ Heq.
      apply (IH (tail text)); [destruct text; simpl in *; lia|].
      now exists before, after.
    + destruct before as [|b before].
      * injection Heq as -> Hrest.
        assert (Hhead : head (Parse.parse_text text) = Some 110%N)
          by now rewrite Hrest.
        apply parse_text_head in Hhead as [Hbad|Hhead]; [discriminate|].
        destruct text as [|c' text]; [discriminate|].
        injection Hhead as ->. discriminate.
      * injection Heq as _ Heq.
        apply (IH text); [lia|]. now exists before, after.
Qed.

Lemma parse_text_no_pair (text : pystr) :
  ~ Parse.contains (Parse.parse_text text) Parse.escaped_newline.
Proof. now apply (parse_text_no_pair_bounded (length text)). Qed.

Lemma parse_text_fixes (text : pystr) :
  ~ Parse.contains text Parse.escaped_newline ->
  Parse.parse_text text = text.
Proof.
  induction text as [|c text IH]; intros Hfree; [reflexivity|].
  rewrite parse_text_cons.
  destruct ((c =? 92)%N && _) eqn:Hpair.
  - destruct Hfree. apply andb_prop in Hpair as [Hc Hc'].
    destruct text as [|c' text]; [discriminate|].
    apply N.eqb_eq in Hc, Hc'. subst. now exists [], text.
  - f_equal. apply IH. intros (before & after & ->).
    apply Hfree. now exists (c :: before), after.
Qed.

(** X16: the result of [parse_text] holds no backslash followed by the
    letter n any more: every escaped line break has become a line break,
    and the replacement creates no new one. *)
Theorem parse_text_leaves_no_escaped_newline (text : pystr) :
  ~ Parse.contains (Parse.parse_text text) Parse.escaped_newline.
Proof. apply parse_text_no_pair. Qed.

(** X17: [parse_text] leaves a text as it is exactly when the text holds
    no escaped line break; so applying it twice is applying it once. *)
Theorem parse_text_fixed_points (text : pystr) :
  (Parse.parse_text text = text
   <-> ~ Parse.contains text Parse.escaped_newline)
  /\ Parse.parse_text (Parse.parse_text text) = Parse.parse_text text.
Proof.
  split; [split|].
  - intros Hfixed. rewrite <- Hfixed. apply parse_text_no_pair.
  - apply parse_text_fixes.
  - apply parse_text_fixes, parse_text_no_pair.
Qed.

Lemma endswith_app (s suffix : pystr) :
  Parse.endswith (s ++ suffix) suffix = true.
Proof.
  unfold Parse.endswith. rewrite rev_app_distr. apply startswith_app.
Qed.

(** Removing the markers from a fenced text gives the text back. *)
Lemma remove_markers_fenced (text : pystr) :
  Parse.remove_markers (PyStr.strip (fenced text)) = text.
Proof.
  assert (Hstrip : PyStr.strip (fenced text) = fenced text).
  { unfold PyStr.strip, fenced.
    change (py "```json") with [96%N; 96%N; 96%N; 106%N; 115%N; 111%N; 110%N].
    change (py "```") with [96%N; 96%N; 96%N].
    replace ([10%N] ++ text ++ [10%N] ++ [96%N; 96%N; 96%N])
      with (([10%N] ++ text ++ [10%N; 96%N; 96%N]) ++ [96%N])
      by (now rewrite <- !app_assoc).
    exact (strip_by_guarded PyStr.isspace
             ([96%N; 96%N; 106%N; 115%N; 111%N; 110%N]
              ++ [10%N] ++ text ++ [10%N; 96%N; 96%N])
             96%N eq_refl). }
  rewrite Hstrip. unfold Parse.remove_markers.
  assert (Hshape : fenced text
                   = Parse.opening_marker ++ text ++ Parse.closing_marker).
  { unfold fenced, Parse.opening_marker, Parse.closing_marker.
    now rewrite <- !app_assoc. }
  rewrite Hshape, startswith_app, drop_app_length, endswith_app.
  rewrite length_app, Nat.add_sub. apply take_app_length.
Qed.

Section ParseJson.
Context `{Externals}.

(** X18: for a text between the two markers, each on a line of its own,
    [parse_json_from_string] decodes exactly the text between them,
    whatever the text is; a text that does not decode gives [None]. *)
Theorem parse_json_from_string_fenced (text : pystr) :
  Parse.parse_json_from_string (fenced text)
  = match json_loads text with
    | Return value => Return value
    | Raise (JSONDecodeError _) => Return JNull
    | Raise e => Raise e
    end.
Proof.
  unfold Parse.parse_json_from_string. now rewrite remove_markers_fenced.
Qed.

(** X19: white space around the text does not change what
    [parse_json_from_string] returns. *)
Theorem parse_json_from_string_ignores_outer_space
    (before text after : pystr) :
  forallb PyStr.isspace before = true ->
  forallb PyStr.isspace after = true ->
  Parse.parse_json_from_string (before ++ text ++ after)
  = Parse.parse_json_from_string text.
Proof.
  intros Hbefore Hafter. unfold Parse.parse_json_from_string, PyStr.strip.
  now rewrite strip_by_affixes.
Qed.

End ParseJson.

(** ** The extraction agent and the chat turn *)
Section Application.
Context `{Vision}.
Implicit Types (agent_router : MultiAgentRouter.t World)
  (extract_agent : ExtractAgent.t) (recommend_agent : Agent.t World)
  (s : MultiAgentRouter.State World).

(** X20: the extraction that [ExtractAgent.run] returns has no white space
    at either end, so that stripping it again changes nothing. *)
Theorem extract_run_is_stripped extract_agent (query image_path : pystr)
    (w w' : World) (extraction : pystr) :
  ExtractAgent.run extract_agent query image_path w
  = (Return extraction, w') ->
  PyStr.left_clean PyStr.isspace extraction
  /\ PyStr.left_clean PyStr.isspace (rev extraction)
  /\ PyStr.strip extraction = extraction.
Proof.
  unfold ExtractAgent.run, bind, raise, ret.
  destruct (generate_content_text _ query image_path w) as [[[text|]|e] w1];
    try discriminate.
  intros [= <- _]. split; [|split].
  - apply rstrip_by_left_clean, lstrip_by_left_clean.
  - unfold PyStr.strip, PyStr.strip_by, PyStr.rstrip_by.
    rewrite rev_involutive. apply lstrip_by_left_clean.
  - apply strip_by_idem.
Qed.

(** The first turn that [route_task] adds is the user turn with the
    task. *)
Lemma route_task_log_starts_with_task agent_router (task : pystr) s :
  exists rest : list Turn,
    MultiAgentRouter.conversation
      (snd (MultiAgentRouter.route_task agent_router task s))
    = MultiAgentRouter.conversation s
      ++ {| role := py "user"; content := task |} :: rest.
Proof.
  pose proof (route_task_effects agent_router task s) as Heff.
  cbv zeta in Heff.
  pose proof (after_decision_conversation agent_router task s) as Htwo.
  assert (Hcase : exists extra,
    MultiAgentRouter.conversation
      (snd (MultiAgentRouter.route_task agent_router task s))
    = MultiAgentRouter.conversation
        (MultiAgentRouter.after_decision agent_router task s) ++ extra).
  { destruct (MultiAgentRouter.boss_response_at agent_router task s)
      as [[d|j]|]; try (exists []; now rewrite Heff, app_nil_r).
    destruct (PyDict.get (selected_agent d)
                (MultiAgentRouter.agents agent_router)) as [a|];
      [|exists []; now rewrite Heff, app_nil_r].
    destruct (MultiAgentRouter.execute_task agent_router);
      destruct Heff as [_ Hconv];
      [|exists []; now rewrite Hconv, app_nil_r].
    eexists. exact Hconv. }
  destruct Hcase as [extra Hconv]. rewrite Hconv, Htwo, <- app_assoc.
  eexists. reflexivity.
Qed.

Lemma invoke_keeps_log (agent : Agent.t World) (argument : pystr) s :
  MultiAgentRouter.conversation
    (snd (MultiAgentRouter.invoke agent argument s))
  = MultiAgentRouter.conversation s.
Proof.
  unfold MultiAgentRouter.invoke.
  now destruct (Agent.run agent argument (MultiAgentRouter.world s)).
Qed.

(** X21: when an extraction is supplied, [get_response] consults neither
    the extraction agent nor the image; a finished turn hands the supplied
    extraction back, and the first thing it has logged is the user turn
    whose content is the fixed preamble, the extraction, an empty line and
    the query. *)
Theorem get_response_with_supplied_extraction extract_agent extract_agent'
    agent_router recommend_agent (image_path image_path' query : pystr)
    (extraction : pystr) s :
  Main.get_response extract_agent agent_router recommend_agent
    image_path query (Some extraction) s
  = Main.get_response extract_agent' agent_router recommend_agent
      image_path' query (Some extraction) s
  /\ forall (answer : option pystr) (prompts : json) (returned : pystr)
            (s' : MultiAgentRouter.State World),
       Main.get_response extract_agent agent_router recommend_agent
         image_path query (Some extraction) s
       = (Main.Finished (answer, prompts, returned), s') ->
       returned = extraction
       /\ exists rest : list Turn,
            MultiAgentRouter.conversation s'
            = MultiAgentRouter.conversation s
              ++ {| role := py "user";
                    content := Main.router_task extraction query |} :: rest.
Proof.
  split; [reflexivity|].
  intros answer prompts returned s'.
  unfold Main.get_response, Main.agent_router_run.
  pose proof (route_task_log_starts_with_task agent_router
                (Main.router_task extraction query) s) as [rest Hlog].
  destruct (MultiAgentRouter.route_task agent_router _ s)
    as [[output|e] s2]; [|discriminate].
  pose proof (invoke_keeps_log recommend_agent
                (Main.recommendation_prompt query
                   (response (execution output))) s2) as Hkeep.
  destruct (MultiAgentRouter.invoke recommend_agent _ s2)
    as [[reply|e] s3]; [|discriminate].
  destruct (Parse.parse_json_from_string reply) as [value|e];
    [|discriminate].
  destruct (Main.getitem value _) as [found|f]; [|discriminate].
  intros [= _ _ <- <-]. split; [reflexivity|].
  exists rest. simpl in Hkeep, Hlog. now rewrite Hkeep, Hlog.
Qed.

(** X22: when the recommendation agent does not answer in JSON,
    [get_response] ends in the [TypeError] of subscripting [None]: the
    decode error that [parse_json_from_string] swallowed comes back one
    line later, after the task has been routed and answered. *)
Theorem get_response_fails_on_undecodable_recommendation extract_agent
    agent_router recommend_agent (image_path query extraction : pystr) s
    (output : TaskRecord) (s2 : MultiAgentRouter.State World)
    (reply msg : pystr) (w3 : World) :
  MultiAgentRouter.route_task agent_router
    (Main.router_task extraction query) s = (Return output, s2) ->
  Agent.run recommend_agent
    (Main.recommendation_prompt query (response (execution output)))
    (MultiAgentRouter.world s2) = (Return reply, w3) ->
  json_loads (Parse.remove_markers (PyStr.strip reply))
  = Raise (JSONDecodeError msg) ->
  Main.get_response extract_agent agent_router recommend_agent
    image_path query (Some extraction) s
  = (Main.Failed
       (Main.TypeError (py "'NoneType' object is not subscriptable")),
     {| MultiAgentRouter.world := w3;
        MultiAgentRouter.conversation := MultiAgentRouter.conversation s2;
        MultiAgentRouter.calls :=
          MultiAgentRouter.calls s2
          ++ [ {| callee := Agent.name recommend_agent;
                  argument :=
                    Main.recommendation_prompt query
                      (response (execution output)) |} ] |}).
Proof.
  intros Hroute Hreply Hdecode.
  unfold Main.get_response, Main.agent_router_run,
    MultiAgentRouter.invoke, Parse.parse_json_from_string.
  now rewrite Hroute, Hreply, Hdecode.
Qed.

(** X23: when the extraction fails, [get_response] fails with the same
    exception before the router is reached: nothing is logged and no
    handler is invoked. *)
Theorem get_response_stops_at_failed_extraction extract_agent agent_router
    recommend_agent (image_path query : pystr) s (e : exn) (w1 : World) :
  ExtractAgent.run extract_agent query image_path (MultiAgentRouter.world s)
  = (Raise e, w1) ->
  exists s' : MultiAgentRouter.State World,
    Main.get_response extract_agent agent_router recommend_agent
      image_path query None s
    = (Main.Failed (Main.Propagated e), s')
    /\ MultiAgentRouter.conversation s' = MultiAgentRouter.conversation s
    /\ MultiAgentRouter.calls s' = MultiAgentRouter.calls s.
Proof.
  intros Hextract.
  unfold Main.get_response, MultiAgentRouter.in_world.
  rewrite Hextract. eexists. split; [reflexivity|]. split; reflexivity.
Qed.

(** X24: when the routing reply yields no decision, the whole chat turn
    fails with the [AttributeError] of [route_task]: the user turn and the
    assistant turn are logged, no handler has run, and the recommendation
    agent is not invoked. *)
Theorem get_response_fails_without_decision extract_agent agent_router
    recommend_agent (image_path query extraction : pystr) s :
  MultiAgentRouter.boss_response_at agent_router
    (Main.router_task extraction query) s = None ->
  exists s' : MultiAgentRouter.State World,
    Main.get_response extract_agent agent_router recommend_agent
      image_path query (Some extraction) s
    = (Main.Failed
         (Main.Propagated
            (AttributeError
               (py "'NoneType' object has no attribute 'selected_agent'"))),
       s')
    /\ MultiAgentRouter.calls s' = MultiAgentRouter.calls s
    /\ MultiAgentRouter.conversation s'
       = MultiAgentRouter.conversation s
         ++ [ {| role := py "user";
                 content := Main.router_task extraction query |};
              {| role := py "assistant"; content := any_to_str None |} ].
Proof.
  intros Hnone. unfold Main.get_response, Main.agent_router_run.
  rewrite (route_task_no_usable_decision agent_router _ s Hnone).
  eexists. split; [reflexivity|]. split; reflexivity.
Qed.

End Application.

(** ** The concrete setting *)

(** The parser of the setting skips the white space around a text. *)
Lemma loads_skips_space (text : pystr) (value : json) :
  Demo.loads text = Return value ->
  Demo.loads (PyStr.strip text) = Return value.
Proof.
  unfold Demo.loads, PyStr.strip. now rewrite strip_by_idem.
Qed.

(** The parser of the setting rejects a text that begins with a fence. *)
Lemma loads_not_fenced (text : pystr) (value : json) :
  Demo.loads text = Return value ->
  PyStr.startswith text (py "```json") = false.
Proof.
  destruct text as [|c text]; [reflexivity|].
  destruct (N.eqb_spec c 96) as [->|Hc].
  - intros Hloads. exfalso. revert Hloads.
    unfold Demo.loads, PyStr.strip, PyStr.strip_by.
    change (PyStr.lstrip_by PyStr.isspace (96%N :: text)) with (96%N :: text).
    rewrite rstrip_by_cons_kept by reflexivity.
    unfold Demo.known_objects. cbn [List.find].
    repeat (rewrite bool_decide_eq_false_2 by (vm_compute; discriminate)).
    discriminate.
  - intros _.
    change (py "```json")
      with (96%N :: [96%N; 96%N; 106%N; 115%N; 111%N; 110%N]).
    cbn [PyStr.startswith]. apply N.eqb_neq in Hc. now rewrite Hc.
Qed.

#[local] Existing Instance Demo.externals.

(** The constructor accepts the setting's arguments and builds the router
    of the setting. *)
Lemma demo_router_constructed : Demo.router_with true = Return Demo.router.
Proof. reflexivity. Qed.

(** In the setting the decision step is a function of the task. *)
Lemma demo_decision_deterministic (task : pystr) :
  MultiAgentRouter.decision_deterministic Demo.router task.
Proof.
  intros w w'. rewrite !run_cases.
  unfold completion_content, Demo.externals.
  now destruct (Demo.reply _) as [[content|]|e].
Qed.


(** In the setting: the routed math task names the registered handler B,
    and the task answered with the unregistered name C raises. *)
Lemma route_task_selects_registered_agent_witness :
  (exists record : TaskRecord,
      fst (MultiAgentRouter.route_task Demo.router (py "What is 2+2?")
             Demo.start) = Return record
      /\ In (decision_selected_agent (boss_decision record))
            (PyDict.keys (MultiAgentRouter.agents Demo.router)))
  /\ exists s' : MultiAgentRouter.State World,
       MultiAgentRouter.route_task Demo.router (py "who?") Demo.start
       = (Raise (ValueError (py "Boss selected unknown agent: " ++ py "C")),
          s').
Proof.
  split.
  - assert (Hreturns : exists (record : TaskRecord)
                              (s' : MultiAgentRouter.State World),
              MultiAgentRouter.route_task Demo.router (py "What is 2+2?")
                Demo.start = (Return record, s'))
      by (vm_compute; eexists; eexists; reflexivity).
    destruct Hreturns as (record & s' & Hroute).
    exists record. split; [now rewrite Hroute|].
    exact (proj1 (route_task_selects_registered_agent
                    Demo.router (py "What is 2+2?") Demo.start)
                 record s' Hroute).
  - refine (proj2 (route_task_selects_registered_agent
                     Demo.router (py "who?") Demo.start)
                  {| selected_agent := py "C";
                     reasoning := py "nobody fits";
                     modified_task := None |} _ _).
    + vm_compute. reflexivity.
    + vm_compute. intros [Heq|[Heq|[]]]; discriminate.
Defined.

(** C2, at a decision with a modified task: the decision proposes
    [Compute 2+2] for the task [What is 2+2?], and the record that
    [route_task] returns holds the caller's text in [task.modified], not the
    proposed one. *)
Theorem route_task_modified_holds_original_text :
  exists (d : AgentResponse) (record : TaskRecord)
         (s' : MultiAgentRouter.State World),
    MultiAgentRouter.boss_response_at Demo.router (py "What is 2+2?")
      Demo.start = Some (Validated d)
    /\ modified_task d = Some (py "Compute 2+2")
    /\ MultiAgentRouter.route_task Demo.router (py "What is 2+2?") Demo.start
       = (Return record, s')
    /\ original (task record) = py "What is 2+2?"
    /\ modified (task record) = Some (py "What is 2+2?")
    /\ modified (task record) <> modified_task d.
Proof.
  eexists. eexists. eexists.
  split; [vm_compute; reflexivity|].
  split; [reflexivity|].
  split; [vm_compute; reflexivity|].
  split; [reflexivity|]. split; [reflexivity|].
  vm_compute. discriminate.
Qed.

(** In the setting: the decision for the math task proposes another
    wording, and handler B, which hands its argument back, is run on the
    wording of the caller: the response is the caller's text. *)
Lemma route_task_executes_original_task_witness :
  MultiAgentRouter.calls
    (snd (MultiAgentRouter.route_task Demo.router (py "What is 2+2?")
            Demo.start))
  = MultiAgentRouter.calls Demo.start
    ++ [ {| callee := py "B"; argument := py "What is 2+2?" |} ]
  /\ outcome_map (fun record => response (execution record))
       (fst (MultiAgentRouter.route_task Demo.router (py "What is 2+2?")
               Demo.start))
     = Return (Some (py "What is 2+2?")).
Proof.
  destruct (route_task_executes_original_task
              Demo.router (py "What is 2+2?") Demo.start
              {| selected_agent := py "B"; reasoning := py "math task";
                 modified_task := Some (py "Compute 2+2") |}
              Demo.agent_B) as (Hcalls & Hresponse & _).
  - reflexivity.
  - vm_compute. reflexivity.
  - vm_compute. reflexivity.
  - split; [exact Hcalls | exact Hresponse].
Defined.

(** In the setting: of three tasks the second raises, and the batch
    returns the records of the first and of the third. *)
Lemma batch_run_omits_the_failed_task_witness :
  exists results : list TaskRecord,
    MultiAgentRouter.batch_run Demo.router
      [py "hello"; py "who?"; py "What is 2+2?"] Demo.start
    = (Return results,
       snd (MultiAgentRouter.route_each Demo.router
              [py "hello"; py "who?"; py "What is 2+2?"] Demo.start))
    /\ length results
       = (length [py "hello"; py "who?"; py "What is 2+2?"] - 1)%nat
    /\ List.map Return results
       = delete 1%nat
           (fst (MultiAgentRouter.route_each Demo.router
                   [py "hello"; py "who?"; py "What is 2+2?"] Demo.start)).
Proof.
  apply (batch_run_omits_the_failed_task Demo.router
            [py "hello"; py "who?"; py "What is 2+2?"] Demo.start 1%nat
            (ValueError (py "Boss selected unknown agent: " ++ py "C"))).
  - vm_compute. reflexivity.
  - apply forallb_delete_lookup. vm_compute. reflexivity.
Defined.

(** In the setting: a reply that is no JSON text, and a reply that lacks
    the required [selected_agent], both make [run] return [None]. *)
Lemma run_returns_None_on_decode_error_witness :
  LiteLLMFunctionCaller.run Demo.caller (py "garbled") 0%nat
  = (Return None, 1%nat)
  /\ LiteLLMFunctionCaller.run Demo.caller (py "incomplete") 0%nat
     = (Return None, 1%nat).
Proof.
  split.
  - refine (run_returns_None_on_decode_error Demo.caller (py "garbled")
              (py "I cannot answer that.") 0%nat 1%nat _ _).
    + vm_compute. reflexivity.
    + left. vm_compute. reflexivity.
  - refine (run_returns_None_on_decode_error Demo.caller (py "incomplete")
              (Demo.object_text Demo.incomplete_decision) 0%nat 1%nat _ _).
    + vm_compute. reflexivity.
    + right.
      exists (Demo.object_value Demo.incomplete_decision),
             AgentResponse_model_validate.
      repeat split; vm_compute; reflexivity.
Defined.

(** With the drifting model: the fenced reply of the first call and the
    bare reply of the second are both parsed to the decision for
    handler A. *)
Lemma run_fenced_reply_same_as_bare_witness :
  fst (@LiteLLMFunctionCaller.run Demo.drifting _ Demo.caller
         (py "hello") 0%nat)
  = fst (@LiteLLMFunctionCaller.run Demo.drifting _ Demo.caller
           (py "hello") 1%nat)
  /\ fst (@LiteLLMFunctionCaller.run Demo.drifting _ Demo.caller
            (py "hello") 0%nat)
     = Return (Some (Validated {| selected_agent := py "A";
                                  reasoning := py "greeting";
                                  modified_task := None |})).
Proof.
  refine (@run_fenced_reply_same_as_bare Demo.drifting _
            loads_skips_space loads_not_fenced Demo.caller (py "hello")
            (Demo.object_text Demo.greeting_decision)
            (Demo.object_value Demo.greeting_decision)
            0%nat 1%nat 1%nat 2%nat _ _ _).
  - vm_compute. reflexivity.
  - reflexivity.
  - reflexivity.
Defined.



(** With the moody handler registered, the decision step is still a
    function of the task. *)
Lemma mixed_decision_deterministic (task : pystr) :
  MultiAgentRouter.decision_deterministic Scenario.mixed task.
Proof.
  intros w w'. rewrite !run_cases.
  unfold completion_content, Demo.externals.
  now destruct (Demo.reply _) as [[content|]|e].
Qed.

(** The greeting selects handler A, which is a function of the task. *)
Lemma mixed_selected_handler_deterministic :
  MultiAgentRouter.selected_handler_deterministic Scenario.mixed
    (py "hello") Demo.start.
Proof.
  intros d agent Hd Hget w w'.
  assert (Hdecision :
    MultiAgentRouter.boss_response_at Scenario.mixed (py "hello") Demo.start
    = Some (Validated {| selected_agent := py "A";
                         reasoning := py "greeting";
                         modified_task := None |}))
    by (vm_compute; reflexivity).
  assert (Hd' : Some (Validated d)
                = Some (Validated {| selected_agent := py "A";
                                     reasoning := py "greeting";
                                     modified_task := None |}))
    by congruence.
  injection Hd' as ->.
  assert (Hagent : PyDict.get (py "A")
                     (MultiAgentRouter.agents Scenario.mixed)
                   = Some Demo.agent_A) by reflexivity.
  cbn [selected_agent] in Hget.
  assert (Hsame : Some agent = Some Demo.agent_A) by congruence.
  injection Hsame as ->. reflexivity.
Qed.

(** Not every handler of this router is a function of the task. *)
Lemma mixed_handlers_not_deterministic :
  ~ MultiAgentRouter.handlers_deterministic Scenario.mixed (py "hello").
Proof.
  intros Hall.
  specialize (Hall (py "M") Scenario.moody eq_refl 0%nat 1%nat).
  discriminate Hall.
Qed.

(** The greeting routed twice in a row, by a router in which a handler
    that is not selected answers differently from one moment to the
    next. *)
Lemma route_task_twice_same_content_witness :
  exists (r1 r2 : TaskRecord) (s1 s2 : MultiAgentRouter.State World),
    MultiAgentRouter.route_task Scenario.mixed (py "hello") Demo.start
    = (Return r1, s1)
    /\ MultiAgentRouter.route_task Scenario.mixed (py "hello") s1
       = (Return r2, s2)
    /\ decision_selected_agent (boss_decision r1)
       = decision_selected_agent (boss_decision r2)
    /\ response (execution r1) = response (execution r2)
    /\ record_content r1 = record_content r2.
Proof.
  assert (Hreturns : exists (r1 : TaskRecord)
                            (s1 : MultiAgentRouter.State World),
            MultiAgentRouter.route_task Scenario.mixed (py "hello")
              Demo.start
            = (Return r1, s1))
    by (vm_compute; eexists; eexists; reflexivity).
  destruct Hreturns as (r1 & s1 & Hfirst).
  destruct (route_task_twice_same_content Scenario.mixed (py "hello")
              Demo.start r1 s1
              (mixed_decision_deterministic (py "hello"))
              mixed_selected_handler_deterministic Hfirst)
    as (r2 & s2 & Hsecond & Hrest).
  exists r1, r2, s1, s2. split; [exact Hfirst|]. split; assumption.
Defined.

(** In the setting: the task answered with the unregistered name C. *)
Lemma route_task_unknown_agent_leaves_two_turns_witness :
  exists s' : MultiAgentRouter.State World,
    MultiAgentRouter.route_task Demo.router (py "who?") Demo.start
    = (Raise (ValueError (py "Boss selected unknown agent: " ++ py "C")), s')
    /\ MultiAgentRouter.conversation s'
       = MultiAgentRouter.conversation Demo.start
         ++ [ {| role := py "user"; content := py "who?" |};
              {| role := py "assistant";
                 content :=
                   any_to_str
                     (Some (Validated
                              {| selected_agent := py "C";
                                 reasoning := py "nobody fits";
                                 modified_task := None |})) |} ].
Proof.
  apply (route_task_unknown_agent_leaves_two_turns Demo.router (py "who?")
           Demo.start
           {| selected_agent := py "C"; reasoning := py "nobody fits";
              modified_task := None |}).
  - vm_compute. reflexivity.
  - vm_compute. reflexivity.
Defined.

(** ** The further properties, in the concrete setting *)

(** In the setting [run] is a function of the task. *)
Lemma demo_run_deterministic :
  LiteLLMFunctionCaller.run_deterministic Demo.caller.
Proof. intros task w w'. apply demo_decision_deterministic. Qed.

(** In the setting: two tasks, the second completed first. *)
Lemma caller_concurrent_run_agrees_with_batch_run_witness :
  fst (@LiteLLMFunctionCaller.concurrent_run Demo.externals _
         [1%nat; 0%nat] Demo.caller [py "hello"; py "garbled"] 0%nat)
  = fst (@LiteLLMFunctionCaller.batch_run Demo.externals _ Demo.caller
           [py "hello"; py "garbled"] 0%nat).
Proof.
  apply (@caller_concurrent_run_agrees_with_batch_run Demo.externals _
           Demo.caller [py "hello"; py "garbled"] [1%nat; 0%nat]
           0%nat 0%nat).
  - exact demo_run_deterministic.
  - discriminate.
  - apply perm_swap.
Defined.

(** In the setting: the greeting routed without execution invokes no
    handler. *)
Lemma route_task_without_execution_witness :
  MultiAgentRouter.calls
    (snd (MultiAgentRouter.route_task Scenario.idle (py "hello") Demo.start))
  = MultiAgentRouter.calls Demo.start.
Proof.
  exact (proj1 (route_task_without_execution Scenario.idle (py "hello")
                  Demo.start eq_refl)).
Defined.

(** In the setting: a reply that is no JSON text. *)
Lemma route_task_raises_without_decision_witness :
  fst (MultiAgentRouter.route_task Demo.router (py "garbled") Demo.start)
  = Raise (AttributeError
             (py "'NoneType' object has no attribute 'selected_agent'")).
Proof.
  assert (Hnone : MultiAgentRouter.boss_response_at Demo.router
                    (py "garbled") Demo.start = None)
    by (vm_compute; reflexivity).
  now rewrite (route_task_raises_without_decision Demo.router
                 (py "garbled") Demo.start Hnone).
Defined.

(** In the setting: the task for which the model selects the failing
    handler C. *)
Lemma route_task_propagates_handler_exception_witness :
  exists s' : MultiAgentRouter.State World,
    MultiAgentRouter.route_task Scenario.crowded (py "who?") Demo.start
    = (Raise (RuntimeError (py "handler failed")), s').
Proof.
  destruct (route_task_propagates_handler_exception Scenario.crowded
              (py "who?") Demo.start
              {| selected_agent := py "C"; reasoning := py "nobody fits";
                 modified_task := None |}
              Scenario.agent_C (RuntimeError (py "handler failed")))
    as (s' & Hroute & _).
  - reflexivity.
  - vm_compute. reflexivity.
  - vm_compute. reflexivity.
  - reflexivity.
  - exists s'. exact Hroute.
Defined.

(** In the setting: the greeting, routed and answered. *)
Lemma route_task_logs_three_turns_witness :
  exists (record : TaskRecord) (s' : MultiAgentRouter.State World)
         (agent_response : pystr),
    MultiAgentRouter.route_task Demo.router (py "hello") Demo.start
    = (Return record, s')
    /\ response (execution record) = Some agent_response
    /\ length (MultiAgentRouter.conversation s') = 3%nat.
Proof.
  assert (Hreturns : exists (record : TaskRecord)
                            (s' : MultiAgentRouter.State World),
            MultiAgentRouter.route_task Demo.router (py "hello") Demo.start
            = (Return record, s'))
    by (vm_compute; eexists; eexists; reflexivity).
  destruct Hreturns as (record & s' & Hroute).
  destruct (route_task_logs_three_turns Demo.router (py "hello") Demo.start
              record s' eq_refl Hroute) as (agent_response & Hresp & Hlog).
  exists record, s', agent_response.
  split; [exact Hroute|]. split; [exact Hresp|]. now rewrite Hlog.
Defined.

(** In the setting: the greeting is answered by the handler that the
    decision names. *)
Lemma route_task_agent_name_is_selected_name_witness :
  exists (record : TaskRecord) (s' : MultiAgentRouter.State World),
    MultiAgentRouter.route_task Demo.router (py "hello") Demo.start
    = (Return record, s')
    /\ agent_name (execution record)
       = decision_selected_agent (boss_decision record).
Proof.
  assert (Hreturns : exists (record : TaskRecord)
                            (s' : MultiAgentRouter.State World),
            MultiAgentRouter.route_task Demo.router (py "hello") Demo.start
            = (Return record, s'))
    by (vm_compute; eexists; eexists; reflexivity).
  destruct Hreturns as (record & s' & Hroute).
  exists record, s'. split; [exact Hroute|].
  exact (route_task_agent_name_is_selected_name
           [Demo.agent_A; Demo.agent_B] Demo.router (py "hello") Demo.start
           record s' eq_refl Hroute).
Defined.

(** In the setting: a known object between a blank and a line break on one
    side and a blank on the other. *)
Lemma parse_json_from_string_ignores_outer_space_witness :
  Parse.parse_json_from_string
    ([32%N; 10%N] ++ Demo.object_text Demo.greeting_decision ++ [32%N])
  = Parse.parse_json_from_string (Demo.object_text Demo.greeting_decision).
Proof.
  apply (parse_json_from_string_ignores_outer_space [32%N; 10%N]
           (Demo.object_text Demo.greeting_decision) [32%N]);
    reflexivity.
Defined.

(** With the padded answer of the vision model. *)
Lemma extract_run_is_stripped_witness :
  PyStr.left_clean PyStr.isspace (py "two bars")
  /\ PyStr.left_clean PyStr.isspace (rev (py "two bars"))
  /\ PyStr.strip (py "two bars") = py "two bars".
Proof.
  apply (@extract_run_is_stripped Demo.externals
           (Scenario.vision Demo.externals) Scenario.extractor
           (py "What does the chart show?") (py "chart.png") 0%nat 0%nat).
  vm_compute. reflexivity.
Defined.

(** With the drifting model, which routes the turn to handler A, and the
    recommendation agent that apologises. *)
Lemma get_response_fails_on_undecodable_recommendation_witness :
  fst (@Main.get_response Demo.drifting (Scenario.vision Demo.drifting)
         Scenario.extractor Demo.router Scenario.apologetic
         (py "chart.png") (py "Which bar is taller?") (Some (py "two bars"))
         Demo.start)
  = Main.Failed
      (Main.TypeError (py "'NoneType' object is not subscriptable")).
Proof.
  assert (Hreturns : exists (output : TaskRecord)
                            (s2 : MultiAgentRouter.State World),
            @MultiAgentRouter.route_task Demo.drifting Demo.router
              (Main.router_task (py "two bars") (py "Which bar is taller?"))
              Demo.start = (Return output, s2))
    by (vm_compute; eexists; eexists; reflexivity).
  destruct Hreturns as (output & s2 & Hroute).
  rewrite (@get_response_fails_on_undecodable_recommendation Demo.drifting
             (Scenario.vision Demo.drifting) Scenario.extractor Demo.router
             Scenario.apologetic (py "chart.png")
             (py "Which bar is taller?") (py "two bars") Demo.start
             output s2 (py "Sorry, no idea.") (py "Expecting value")
             (S (MultiAgentRouter.world s2)) Hroute eq_refl).
  - reflexivity.
  - vm_compute. reflexivity.
Defined.

(** With the vision model that cannot open the image. *)
Lemma get_response_stops_at_failed_extraction_witness :
  exists s' : MultiAgentRouter.State World,
    @Main.get_response Demo.externals (Scenario.blind Demo.externals)
      Scenario.extractor Demo.router Scenario.apologetic
      (py "chart.png") (py "Which bar is taller?") None Demo.start
    = (Main.Failed
         (Main.Propagated (RuntimeError (py "cannot identify image file"))),
       s')
    /\ MultiAgentRouter.conversation s'
       = MultiAgentRouter.conversation Demo.start
    /\ MultiAgentRouter.calls s' = MultiAgentRouter.calls Demo.start.
Proof.
  apply (@get_response_stops_at_failed_extraction Demo.externals
           (Scenario.blind Demo.externals) Scenario.extractor Demo.router
           Scenario.apologetic (py "chart.png") (py "Which bar is taller?")
           Demo.start (RuntimeError (py "cannot identify image file"))
           0%nat).
  reflexivity.
Defined.

(** In the setting the model does not answer the composed task at all. *)
Lemma get_response_fails_without_decision_witness :
  exists s' : MultiAgentRouter.State World,
    @Main.get_response Demo.externals (Scenario.vision Demo.externals)
      Scenario.extractor Demo.router Scenario.apologetic
      (py "chart.png") (py "Which bar is taller?") (Some (py "two bars"))
      Demo.start
    = (Main.Failed
         (Main.Propagated
            (AttributeError
               (py "'NoneType' object has no attribute 'selected_agent'"))),
       s').
Proof.
  destruct (@get_response_fails_without_decision Demo.externals
              (Scenario.vision Demo.externals) Scenario.extractor
              Demo.router Scenario.apologetic (py "chart.png")
              (py "Which bar is taller?") (py "two bars") Demo.start)
    as (s' & Hfails & _).
  - vm_compute. reflexivity.
  - exists s'. exact Hfails.
Defined.

(** In the setting: a task that the remote model does not answer. *)
Lemma run_never_raises_witness :
  exists w' : nat,
    @LiteLLMFunctionCaller.run Demo.externals _ Demo.caller
      (py "nobody home") 0%nat
    = (Return None, w').
Proof.
  destruct (@run_never_raises Demo.externals _ Demo.caller
              (py "nobody home") 0%nat) as (r & Hrun & Hnone).
  rewrite Hnone in Hrun.
  - eexists. exact Hrun.
  - intros content. vm_compute. discriminate.
Defined.

(** In the setting: the name B leads to the handler B. *)
Lemma registry_keys_are_agent_names_witness :
  Agent.name Demo.agent_B = py "B"
  /\ In Demo.agent_B [Demo.agent_A; Scenario.agent_C; Demo.agent_B].
Proof.
  apply (proj2 (registry_keys_are_agent_names
                  [Demo.agent_A; Scenario.agent_C; Demo.agent_B])
           (py "B") Demo.agent_B).
  reflexivity.
Defined.

(** With the drifting model, which routes the turn to handler A, and the
    recommendation agent that answers between the markers: the turn
    finishes. *)
Lemma get_response_with_supplied_extraction_witness :
  exists (answer : option pystr) (prompts : json)
         (s' : MultiAgentRouter.State World) (rest : list Turn),
    @Main.get_response Scenario.advising (Scenario.vision Scenario.advising)
      Scenario.extractor Demo.router Scenario.helpful
      (py "chart.png") (py "Which bar is taller?") (Some (py "two bars"))
      Demo.start
    = (Main.Finished (answer, prompts, py "two bars"), s')
    /\ MultiAgentRouter.conversation s'
       = {| role := py "user";
            content := Main.router_task (py "two bars")
                         (py "Which bar is taller?") |} :: rest.
Proof.
  assert (Hfinished :
    exists (answer : option pystr) (prompts : json) (returned : pystr)
           (s' : MultiAgentRouter.State World),
      @Main.get_response Scenario.advising
        (Scenario.vision Scenario.advising)
        Scenario.extractor Demo.router Scenario.helpful
        (py "chart.png") (py "Which bar is taller?") (Some (py "two bars"))
        Demo.start
      = (Main.Finished (answer, prompts, returned), s'))
    by (vm_compute; do 4 eexists; reflexivity).
  destruct Hfinished as (answer & prompts & returned & s' & Hrun).
  destruct (proj2 (@get_response_with_supplied_extraction Scenario.advising
                     (Scenario.vision Scenario.advising)
                     Scenario.extractor Scenario.extractor Demo.router
                     Scenario.helpful (py "chart.png") (py "chart.png")
                     (py "Which bar is taller?") (py "two bars") Demo.start)
              answer prompts returned s' Hrun) as [-> [rest Hlog]].
  exists answer, prompts, s', rest. split; [exact Hrun | exact Hlog].
Defined.

(** In the setting: the reply to the task [incomplete] names no handler. *)
Lemma route_task_raises_on_rejected_reply_witness :
  fst (MultiAgentRouter.route_task Demo.router (py "incomplete") Demo.start)
  = Raise (AttributeError
             (py "'NoneType' object has no attribute 'selected_agent'")).
Proof.
  apply (route_task_raises_on_rejected_reply (py "swarm-router")
           (py "Routes tasks to specialized agents based on their capabilities")
           [Demo.agent_A; Demo.agent_B] (py "gemini/gemini-2.0-flash")
           (Some (py "secret")) (1 # 10) (py "dict") true
           Demo.router (py "incomplete") Demo.start
           (Demo.object_text Demo.incomplete_decision)
           (Demo.object_value Demo.incomplete_decision)).
  - exact demo_router_constructed.
  - vm_compute. reflexivity.
  - vm_compute. reflexivity.
  - intros d [= <-]. left. reflexivity.
Defined.

(** In the setting: the caller of the router holds the key it was given. *)
Lemma caller_init_holds_a_key_witness :
  PyStr.truthy (LiteLLMFunctionCaller.api_key Demo.caller) = true.
Proof.
  apply (proj1 (caller_init_holds_a_key (py "gemini/gemini-2.0-flash")
                  (MultiAgentRouter.boss_system_prompt Demo.router)
                  (Some AgentResponse_model_validate) (Some (py "secret"))
                  (1 # 10) 5000) Demo.caller).
  reflexivity.
Defined.
